(** * check-tag-names: a shallow embedding of [src/rules/checkTagNames.js]

    The rule walks the block tags of one documentation comment and, per tag,
    either skips it, reports it, or reports it together with a fixer.  The
    embedding follows the source function by function: the three built-in
    tag-name sets, the ambient-context walk over the [parent] links of the
    annotated node, the typed-redundancy classifier, the two fixer closures
    and the [for] loop of the callback.

    Conventions.
    - A JavaScript string is a [string]; each character stands for one UTF-16
      code unit below 256.
    - A JavaScript [Set] of tag names is a [gset string]; a plain object used
      as a dictionary is a [gmap] keyed by its property names.
    - Reports are collected in order in a writer monad which also carries an
      abrupt completion ([Throw]) for the exceptions the code can raise.
    - The helpers of [iterateJsdoc.js] which the rule calls through [utils]
      are not part of the sources at hand; they are the fields of the record
      [Utils].  The rule is embedded over an arbitrary [Utils]. *)

From Stdlib Require Import Ascii.
From stdpp Require Import base gmap strings list fin_maps.

(** ** JavaScript values met by the rule *)

Inductive error : Type :=
| TypeError
| SyntaxError.

Inductive completion (A : Type) : Type :=
| Normal (a : A)
| Throw (e : error).
Arguments Normal {A} a.
Arguments Throw {A} e.

(** Primitive values that a setting may hold where a string is expected. *)
Inductive scalar : Type :=
| JsUndefined
| JsNull
| JsBool (b : bool)
| JsString (s : string).

(** A value of [settings.jsdoc.tagNamePreference]: a primitive, or an object
    [{message, replacement}] ([message] absent is [None]). *)
Inductive preference : Type :=
| Scalar (v : scalar)
| Object (message : option string) (replacement : scalar).

Global Instance scalar_eq_dec : EqDecision scalar.
Proof. solve_decision. Defined.

Global Instance preference_eq_dec : EqDecision preference.
Proof. solve_decision. Defined.

(** [ToBoolean] on primitives. *)
Definition truthy (v : scalar) : bool :=
  match v with
  | JsUndefined | JsNull => false
  | JsBool b => b
  | JsString s => negb (String.eqb s "")
  end.

(** [ToBoolean] on a preference value: every object is truthy. *)
Definition truthyPreference (p : preference) : bool :=
  match p with
  | Scalar v => truthy v
  | Object _ _ => true
  end.

(** [ToString] on primitives, as a template literal applies it. *)
Definition toString (v : scalar) : string :=
  match v with
  | JsUndefined => "undefined"
  | JsNull => "null"
  | JsBool true => "true"
  | JsBool false => "false"
  | JsString s => s
  end.

(** [!message] for an optional string. *)
Definition truthyMessage (m : option string) : bool :=
  match m with
  | None => false
  | Some s => negb (String.eqb s "")
  end.

(** [Boolean(subNode.declare)]: the property is absent, [true] or [false]. *)
Definition Boolean (v : option bool) : bool :=
  match v with
  | Some b => b
  | None => false
  end.

(** ** Strings: [endsWith], [trim] *)

(** [s.endsWith(suffix)]: some tail of [s] is [suffix]. *)
Fixpoint endsWith (s suffix : string) : bool :=
  String.eqb s suffix ||
  match s with
  | EmptyString => false
  | String _ s' => endsWith s' suffix
  end.

(** White space and line terminators of [String.prototype.trim], restricted
    to code units below 256: TAB, LF, VT, FF, CR, SP and NBSP. *)
Definition isWhiteSpace (c : ascii) : bool :=
  match nat_of_ascii c with
  | 9 | 10 | 11 | 12 | 13 | 32 | 160 => true
  | _ => false
  end.

Fixpoint trimStart (s : string) : string :=
  match s with
  | EmptyString => EmptyString
  | String c s' => if isWhiteSpace c then trimStart s' else s
  end.

Definition trimEnd (s : string) : string :=
  String.rev (trimStart (String.rev s)).

Definition trim (s : string) : string := trimEnd (trimStart s).

(** Truthiness of a string: it is not empty. *)
Definition nonEmpty (s : string) : bool := negb (String.eqb s "").

(** ** The built-in tag-name sets (lines 5-57) *)

(** [Set.prototype.has]. *)
Definition has (s : gset string) (x : string) : bool := bool_decide (x ∈ s).

Definition jsxTagNames : gset string :=
  {[ "jsx"; "jsxFrag"; "jsxImportSource"; "jsxRuntime" ]}.

Definition typedTagsAlwaysUnnecessary : gset string :=
  {[ "augments"; "callback"; "class"; "enum"; "implements"; "private";
     "property"; "protected"; "public"; "readonly"; "this"; "type";
     "typedef" ]}.

Definition typedTagsUnnecessaryOutsideDeclare : gset string :=
  {[ "abstract"; "access"; "class"; "constant"; "constructs"; "default";
     "enum"; "export"; "exports"; "function"; "global"; "inherits";
     "instance"; "interface"; "member"; "memberof"; "memberOf"; "method";
     "mixes"; "mixin"; "module"; "name"; "namespace"; "override";
     "property"; "requires"; "static"; "this" ]}.

(** ** Syntax-tree nodes and their ancestry *)

(** The rule reads three properties of a node: [type], [declare] and
    [parent].  A node is given with its chain of ancestors; [NullNode] is a
    [null] or [undefined] reference.  The chain is finite: parent links of a
    syntax tree do not form a cycle. *)
Inductive astNode : Type :=
| NullNode
| Node (type : string) (declare : option bool) (parent : astNode).

(** [n.type]; reading a property of [null] raises [TypeError]. *)
Definition nodeType (n : astNode) : completion string :=
  match n with
  | NullNode => Throw TypeError
  | Node type _ _ => Normal type
  end.

(** [n.parent]. *)
Definition nodeParent (n : astNode) : completion astNode :=
  match n with
  | NullNode => Throw TypeError
  | Node _ _ parent => Normal parent
  end.

(** Lines 106-110.
[[
  const isInAmbientContext = (subNode) => {
    return subNode.type === 'Program' ?
      context.getFilename().endsWith('.d.ts') :
      Boolean(subNode.declare) || isInAmbientContext(subNode.parent);
  };
]] *)
Fixpoint isInAmbientContext (filename : string) (subNode : astNode)
  : completion bool :=
  match subNode with
  | NullNode => Throw TypeError
  | Node type declare parent =>
      if String.eqb type "Program" then Normal (endsWith filename ".d.ts")
      else if Boolean declare then Normal true
      else isInAmbientContext filename parent
  end.

(** The ancestor chain of [n], [n] included, holds a [Program] node. *)
Fixpoint rooted (n : astNode) : bool :=
  match n with
  | NullNode => false
  | Node type _ parent => String.eqb type "Program" || rooted parent
  end.

(** Some node of the chain strictly below the first [Program] carries a
    truthy [declare]. *)
Fixpoint declaredBelowRoot (n : astNode) : bool :=
  match n with
  | NullNode => false
  | Node type declare parent =>
      if String.eqb type "Program" then false
      else Boolean declare || declaredBelowRoot parent
  end.

(** ** Tags, comment blocks, fixers and reports *)

(** One block tag as the comment parser hands it over: the tag name without
    its [@], the name path, the type, the description, and the tokens of its
    source line (an object from token name to text: [tag], [postTag], [type],
    [postType], [name], [postName], [description], ...). *)
Record JsdocTag : Type := {
  tag : string;
  name : string;
  type : string;
  description : string;
  tokens : gmap string string;
}.

(** The parsed comment: [jsdoc.tags] is the array the rule iterates.  A tag
    object is addressed by its index in that array. *)
Module Block.
Record t : Type := {
  description : string;
  tags : list JsdocTag;
  padding : bool;
}.
End Block.

Record RemoveTagOptions : Type := {
  removeEmptyBlock : bool;
}.

(** The two fixer closures of the rule, each with the variables it captures:
    the handler given to [utils.reportJSDoc] (lines 133-145) and the fixer
    given to [report] (lines 207-214). *)
Inductive fixer : Type :=
| TypeRemovalFixer (jsdocTag : JsdocTag) (tagIndex : nat)
    (additionalTagChanges : gmap string string)
| ReplaceFixer (tagName : string) (preferredTagName : scalar).

(** What reaches the reporting sink: [utils.reportSettings(message)], or
    [report(message, fixer, jsdocTag)] ([utils.reportJSDoc] reports the same
    triple, with its handler as the fixer); [None] is a [null] fixer. *)
Inductive diagnostic : Type :=
| SettingsReport (message : string)
| Report (message : string) (fixer : option fixer) (jsdocTag : JsdocTag).

(** Computations of the rule: the reports made so far, in order, and how the
    computation completed. *)
Definition M (A : Type) : Type := (list diagnostic * completion A)%type.

Definition ret {A : Type} (a : A) : M A := ([], Normal a).

Definition bind {A B : Type} (m : M A) (f : A -> M B) : M B :=
  match m with
  | (ds, Normal a) => let '(ds', r) := f a in (ds ++ ds', r)
  | (ds, Throw e) => (ds, Throw e)
  end.

Definition lift {A : Type} (c : completion A) : M A := ([], c).

Definition emit (d : diagnostic) : M unit := ([d], Normal tt).

Declare Scope rule_scope.
Delimit Scope rule_scope with rule.
Notation "'let*' x ':=' m 'in' k" := (bind m (fun x => k))
  (at level 10, x name, m at level 100, k at level 200) : rule_scope.
Notation "m '>>' k" := (bind m (fun _ => k))
  (at level 100, k at level 200, right associativity) : rule_scope.
Open Scope rule_scope.

(** The reports of a computation. *)
Definition reports {A : Type} (m : M A) : list diagnostic := fst m.

(** The argument object of [utils.getPreferredTagName]. *)
Record GetPreferredTagNameArgs : Type := {
  allowObjectReturn : bool;
  defaultMessage : string;
  tagName : string;
}.

(** The helpers reached through [utils].  [changeTag] and [removeTag] edit
    the parsed comment; [changeTag] receives the tag object, here its index
    in [jsdoc.tags]. *)
Record Utils : Type := {
  isValidTag : string -> list scalar -> bool;
  getPreferredTagName : GetPreferredTagNameArgs -> M preference;
  changeTag : nat -> gmap string string -> Block.t -> Block.t;
  removeTag : nat -> RemoveTagOptions -> Block.t -> Block.t;
}.

(** ** Regular expressions: the fragment the rule builds *)

(** [escape-string-regexp] (the package the rule imports): a backslash before
    each of [| \ { } ( ) [ ] ^ $ + * ? .], and [\x2d] for each [-]. *)
Definition isRegExpOperator (c : ascii) : bool :=
  bool_decide (c ∈ ["|"; "\"; "{"; "}"; "("; ")"; "["; "]"; "^"; "$"; "+";
                    "*"; "?"; "."]%char).

Fixpoint escapeStringRegexp (s : string) : string :=
  match s with
  | EmptyString => EmptyString
  | String c s' =>
      if isRegExpOperator c then String "\" (String c (escapeStringRegexp s'))
      else if Ascii.eqb c "-" then "\x2d" +:+ escapeStringRegexp s'
      else String c (escapeStringRegexp s')
  end.

(** A pattern of the fragment is a sequence of literal characters and word
    boundaries. *)
Inductive atom : Type :=
| Char (c : ascii)
| WordBoundary.

(** [SyntaxCharacter] of the pattern grammar. *)
Definition isSyntaxCharacter (c : ascii) : bool :=
  bool_decide (c ∈ ["^"; "$"; "\"; "."; "*"; "+"; "?"; "("; ")"; "["; "]";
                    "{"; "}"; "|"]%char).

Definition hexDigit (c : ascii) : option nat :=
  let n := nat_of_ascii c in
  if (48 <=? n) && (n <=? 57) then Some (n - 48)
  else if (97 <=? n) && (n <=? 102) then Some (n - 87)
  else if (65 <=? n) && (n <=? 70) then Some (n - 55)
  else None.

(** [new RegExp(pattern, 'u')] on the fragment: a pattern character stands
    for itself, [\b] is the word-boundary assertion, [\xHH] is the character
    with that code, and a backslash before a syntax character or [/] is that
    character.  Anything else is outside the fragment ([None]). *)
Fixpoint parsePattern (p : string) : option (list atom) :=
  match p with
  | EmptyString => Some []
  | String c p1 =>
      if Ascii.eqb c "\" then
        match p1 with
        | EmptyString => None
        | String e p2 =>
            if Ascii.eqb e "b" then cons WordBoundary <$> parsePattern p2
            else if Ascii.eqb e "x" then
              match p2 with
              | String h (String l p3) =>
                  match hexDigit h, hexDigit l with
                  | Some a, Some b =>
                      cons (Char (ascii_of_nat (16 * a + b)))
                        <$> parsePattern p3
                  | _, _ => None
                  end
              | _ => None
              end
            else if isSyntaxCharacter e || Ascii.eqb e "/" then
              cons (Char e) <$> parsePattern p2
            else None
        end
      else if isSyntaxCharacter c then None
      else cons (Char c) <$> parsePattern p1
  end.

(** [WordCharacters] without the [i] flag: [A-Z], [a-z], [0-9] and [_]. *)
Definition isWordChar (c : ascii) : bool :=
  let n := nat_of_ascii c in
  ((65 <=? n) && (n <=? 90)) || ((97 <=? n) && (n <=? 122)) ||
  ((48 <=? n) && (n <=? 57)) || (n =? 95).

(** [IsWordChar] at a position given by the character before it and the rest
    of the input: outside the input it is false. *)
Definition wordBefore (prev : option ascii) : bool :=
  match prev with
  | Some c => isWordChar c
  | None => false
  end.

Definition wordAfter (s : string) : bool :=
  match s with
  | String c _ => isWordChar c
  | EmptyString => false
  end.

(** Match the atoms at the current position.  [prev] is the character just
    before the position; the result is the matched text and what follows. *)
Fixpoint matchHere (r : list atom) (prev : option ascii) (s : string)
  : option (string * string) :=
  match r with
  | [] => Some (EmptyString, s)
  | WordBoundary :: r' =>
      if xorb (wordBefore prev) (wordAfter s) then matchHere r' prev s
      else None
  | Char c :: r' =>
      match s with
      | String c' s' =>
          if Ascii.eqb c c' then
            '(m, rest) ← matchHere r' (Some c') s';
            Some (String c' m, rest)
          else None
      | EmptyString => None
      end
  end.

(** [RegExp.prototype.exec] from index 0 without the [g] and [y] flags: the
    leftmost position at which the pattern matches.  The result is the text
    before the match, the match, and the text after it. *)
Fixpoint execFrom (r : list atom) (prev : option ascii) (s : string)
  : option (string * string * string) :=
  match matchHere r prev s with
  | Some (m, rest) => Some (EmptyString, m, rest)
  | None =>
      match s with
      | EmptyString => None
      | String c s' =>
          '(before, m, rest) ← execFrom r (Some c) s';
          Some (String c before, m, rest)
      end
  end.

Definition exec (r : list atom) (s : string)
  : option (string * string * string) :=
  execFrom r None s.

(** [GetSubstitution] for a pattern without capture groups: [$$] is a dollar
    sign, [$&] the match, [$`] the text before it, [$'] the text after it;
    every other character, a dollar sign before a digit or [<] included,
    stands for itself. *)
Fixpoint GetSubstitution (matched before after replacement : string)
  : string :=
  match replacement with
  | EmptyString => EmptyString
  | String c r =>
      if Ascii.eqb c "$" then
        match r with
        | EmptyString => String c EmptyString
        | String c' r' =>
            if Ascii.eqb c' "$" then
              String "$" (GetSubstitution matched before after r')
            else if Ascii.eqb c' "&" then
              matched +:+ GetSubstitution matched before after r'
            else if Ascii.eqb c' "`" then
              before +:+ GetSubstitution matched before after r'
            else if Ascii.eqb c' "'" then
              after +:+ GetSubstitution matched before after r'
            else String c (GetSubstitution matched before after r)
        end
      else String c (GetSubstitution matched before after r)
  end.

(** [text.replace(regexp, replacement)] for a regular expression without the
    [g] flag and a string replacement: the first match is substituted, and a
    text without a match is returned as it is. *)
Definition replace (text : string) (r : list atom) (replacement : string)
  : string :=
  match exec r text with
  | Some (before, m, after) =>
      before +:+ GetSubstitution m before after replacement +:+ after
  | None => text
  end.

(** ** The rule (lines 59-219) *)

(** [context.options[0] || {}] after destructuring: [definedTags] defaults to
    the empty array; an absent [jsxTags] or [typed] is falsy. *)
Record Options : Type := {
  definedTags : list string;
  jsxTags : bool;
  typed : bool;
}.

(** [settings]: the preference object, and the property names of
    [structuredTags] (its values are not read by this rule). *)
Record Settings : Type := {
  tagNamePreference : gmap string preference;
  structuredTags : gset string;
}.

(** The double-quote character, for the messages that quote a tag name. *)
Definition dquote : string := String (ascii_of_nat 34) EmptyString.

Fixpoint mapM {A B : Type} (f : A -> M B) (l : list A) : M (list B) :=
  match l with
  | [] => ret []
  | x :: l' =>
      let* y := f x in
      let* ys := mapM f l' in
      ret (y :: ys)
  end.

(** The callback of [Object.values(tagNamePreference).map] (lines 83-100). *)
Definition preferredTagOf (preferredTag : preference) : M scalar :=
  match preferredTag with
  | Scalar (JsString s) => ret (JsString s)
  | Scalar v =>
      if negb (truthy v) then ret JsUndefined
      else
        emit (SettingsReport
          "Invalid `settings.jsdoc.tagNamePreference`. Values must be falsy, a string, or an object.")
        >> ret JsUndefined
  | Object _ replacement => ret replacement
  end.

Section Rule.

Variable utils : Utils.
Variable sourceText : string.
Variable filename : string.
Variable node : astNode.
Variable settings : Settings.
Variable options : Options.

(** Lines 80-81: [Object.keys] of the two setting objects. *)
Definition definedStructuredTags : list string :=
  elements (structuredTags settings).

Definition definedNonPreferredTags : list string :=
  (map_to_list (tagNamePreference settings)).*1.

(** Lines 75-104. *)
Definition definedPreferredTags : M (list scalar) :=
  if bool_decide (length definedNonPreferredTags = 0) then ret []
  else
    let* preferred :=
      mapM preferredTagOf (map_to_list (tagNamePreference settings)).*2 in
    ret (List.filter truthy preferred).

(** Lines 112-130.
[[
  const tagIsRedundantWhenTyped = (jsdocTag) => {
    if (!typedTagsUnnecessaryOutsideDeclare.has(jsdocTag.tag)) {
      return false;
    }
    if (jsdocTag.name === 'default') {
      return false;
    }
    if (context.getFilename().endsWith('.d.ts') && node.parent.type === 'Program') {
      return false;
    }
    if (isInAmbientContext(node)) {
      return false;
    }
    return true;
  };
]] *)
Definition tagIsRedundantWhenTyped (jsdocTag : JsdocTag) : M bool :=
  if negb (has typedTagsUnnecessaryOutsideDeclare (tag jsdocTag)) then
    ret false
  else if String.eqb (name jsdocTag) "default" then ret false
  else
    let* topLevelOfDeclarationFile :=
      (if endsWith filename ".d.ts" then
         let* parent := lift (nodeParent node) in
         let* parentType := lift (nodeType parent) in
         ret (String.eqb parentType "Program")
       else ret false) in
    if topLevelOfDeclarationFile then ret false
    else
      let* ambient := lift (isInAmbientContext filename node) in
      if ambient then ret false else ret true.

(** Lines 132-146: the report, with the handler as a closure over its three
    arguments. *)
Definition reportWithTypeRemovalFixer (message : string)
    (jsdocTag : JsdocTag) (tagIndex : nat)
    (additionalTagChanges : gmap string string) : M unit :=
  emit (Report message
          (Some (TypeRemovalFixer jsdocTag tagIndex additionalTagChanges))
          jsdocTag).

(** The object literal [{postType: '', type: '', ...additionalTagChanges}]:
    the spread properties override the two written ones. *)
Definition typeRemovalChanges (additionalTagChanges : gmap string string)
  : gmap string string :=
  additionalTagChanges ∪ <["postType" := ""]> (<["type" := ""]> ∅).

(** Lines 133-145, the body of the handler. *)
Definition runTypeRemovalFixer (jsdocTag : JsdocTag) (tagIndex : nat)
    (additionalTagChanges : gmap string string) (jsdoc : Block.t) : Block.t :=
  if nonEmpty (trim (description jsdocTag)) then
    changeTag utils tagIndex (typeRemovalChanges additionalTagChanges) jsdoc
  else
    removeTag utils tagIndex {| removeEmptyBlock := true |} jsdoc.

(** Lines 148-168. *)
Definition checkTagForTypedValidity (jsdocTag : JsdocTag) (tagIndex : nat)
  : M bool :=
  if has typedTagsAlwaysUnnecessary (tag jsdocTag) then
    reportWithTypeRemovalFixer
      ("'@" +:+ tag jsdocTag +:+ "' is redundant when using a type system.")
      jsdocTag tagIndex (<["postTag" := ""]> (<["tag" := ""]> ∅))
    >> ret true
  else
    let* redundant := tagIsRedundantWhenTyped jsdocTag in
    if redundant then
      reportWithTypeRemovalFixer
        ("'@" +:+ tag jsdocTag +:+
         "' is redundant outside of ambient (`declare`/`.d.ts`) contexts when using a type system.")
        jsdocTag tagIndex ∅
      >> ret true
    else if String.eqb (tag jsdocTag) "template"
            && negb (nonEmpty (name jsdocTag)) then
      reportWithTypeRemovalFixer
        "'@template' without a name is redundant when using a type system."
        jsdocTag tagIndex ∅
      >> ret true
    else ret false.

(** Lines 207-214, the body of the fixer: the text that replaces the whole
    comment.  [None] stands for a pattern outside the modelled fragment. *)
Definition runReplaceFixer (tagName : string) (preferredTagName : scalar)
  : option string :=
  r ← parsePattern ("@" +:+ escapeStringRegexp tagName +:+ "\b");
  Some (replace sourceText r ("@" +:+ toString preferredTagName)).

(** Line 177, [typed && checkTagForTypedValidity(jsdocTag, tagIndex)]. *)
Definition typedCheck (jsdocTag : JsdocTag) (tagIndex : nat) : M bool :=
  if typed options then checkTagForTypedValidity jsdocTag tagIndex
  else ret false.

(** Lines 181-184, the array given to [utils.isValidTag]. *)
Definition allDefinedTags (definedPreferred : list scalar) : list scalar :=
  (JsString <$> definedTags options) ++ definedPreferred ++
  (JsString <$> definedNonPreferredTags) ++
  (JsString <$> definedStructuredTags).

(** Lines 185-215: the branch taken for a valid tag name. *)
Definition checkPreference (jsdocTag : JsdocTag) : M unit :=
  let tagName := tag jsdocTag in
  let* preferredTagName :=
    getPreferredTagName utils
      {| allowObjectReturn := true;
         defaultMessage := "Blacklisted tag found (`@" +:+ tagName +:+ "`)";
         tagName := tagName |} in
  if negb (truthyPreference preferredTagName) then ret tt
  else
    let '(message, preferredTagName) :=
      match preferredTagName with
      | Object message replacement => (message, replacement)
      | Scalar v => (None, v)
      end in
    let message :=
      match message with
      | Some m =>
          if nonEmpty m then m
          else
            "Invalid JSDoc tag (preference). Replace " +:+ dquote +:+ tagName
            +:+ dquote +:+ " JSDoc tag with " +:+ dquote
            +:+ toString preferredTagName +:+ dquote +:+ "."
      | None =>
          "Invalid JSDoc tag (preference). Replace " +:+ dquote +:+ tagName
          +:+ dquote +:+ " JSDoc tag with " +:+ dquote
          +:+ toString preferredTagName +:+ dquote +:+ "."
      end in
    if bool_decide (preferredTagName ≠ JsString tagName) then
      emit (Report message (Some (ReplaceFixer tagName preferredTagName))
              jsdocTag)
    else ret tt.

(** Lines 171-218: the body of the loop for one tag. *)
Definition checkTag (definedPreferred : list scalar) (jsdocTag : JsdocTag)
    (tagIndex : nat) : M unit :=
  let tagName := tag jsdocTag in
  if jsxTags options && has jsxTagNames tagName then ret tt
  else
    let* redundant := typedCheck jsdocTag tagIndex in
    if redundant then ret tt
    else if isValidTag utils tagName (allDefinedTags definedPreferred) then
      checkPreference jsdocTag
    else
      emit (Report ("Invalid JSDoc tag name " +:+ dquote +:+ tagName
                    +:+ dquote +:+ ".")
              None jsdocTag).

(** Line 170: the loop over [jsdoc.tags], from [tagIndex] on. *)
Fixpoint forEachTag (definedPreferred : list scalar) (tags : list JsdocTag)
    (tagIndex : nat) : M unit :=
  match tags with
  | [] => ret tt
  | jsdocTag :: rest =>
      checkTag definedPreferred jsdocTag tagIndex
      >> forEachTag definedPreferred rest (S tagIndex)
  end.

(** The callback given to [iterateJsdoc], run on one comment. *)
Definition checkTagNames (jsdoc : Block.t) : M unit :=
  let* definedPreferred := definedPreferredTags in
  forEachTag definedPreferred (Block.tags jsdoc) 0.

(** What the host does with the fixer of a report when asked to fix: the
    handler edits the parsed comment, the replace fixer yields a new text for
    the comment, and a report without a fixer changes neither. *)
Definition applyFixer (f : option fixer) (jsdoc : Block.t)
  : option (string * Block.t) :=
  match f with
  | None => Some (sourceText, jsdoc)
  | Some (TypeRemovalFixer jsdocTag tagIndex additionalTagChanges) =>
      Some (sourceText,
            runTypeRemovalFixer jsdocTag tagIndex additionalTagChanges jsdoc)
  | Some (ReplaceFixer tagName preferredTagName) =>
      text ← runReplaceFixer tagName preferredTagName;
      Some (text, jsdoc)
  end.

End Rule.

(** ** The helpers behind [utils], from the specification *)

(** Modelled from the spec: [utils.isValidTag] is defined outside the rule's
    file.  Section 4.1, step 2: the combined allow-list is the union of the
    four lists the rule passes, and a name not in this combined set is
    invalid. *)
Definition specIsValidTag (tagName : string) (allowed : list scalar) : bool :=
  bool_decide (JsString tagName ∈ allowed).

(** A preference that forbids the tag: a falsy value, or an object whose
    replacement is falsy. *)
Definition blacklisted (p : preference) : bool :=
  match p with
  | Scalar v => negb (truthy v)
  | Object _ replacement => negb (truthy replacement)
  end.

(** The message of the report for a forbidden tag: the custom message of an
    object value when it has one, the default message otherwise. *)
Definition blacklistMessage (p : preference) (default : string) : string :=
  match p with
  | Object (Some m) _ => if nonEmpty m then m else default
  | _ => default
  end.

(** Modelled from the spec: [utils.getPreferredTagName] is defined outside
    the rule's file.  Section 4.1, steps 3 and 4: a name that is no key of the
    preference map is valid as it is; a string value is the preferred name; a
    false or empty value, and an object whose replacement is falsy, make the
    tag reported without a fixer, after which the rule goes on to the next
    tag; any other object is handed back with its message.  The report is
    placed on the tag of the comment that bears the name. *)
Definition specGetPreferredTagName (tagNamePreference : gmap string preference)
    (jsdoc : Block.t) (args : GetPreferredTagNameArgs) : M preference :=
  match tagNamePreference !! tagName args with
  | None => ret (Scalar (JsString (tagName args)))
  | Some p =>
      if blacklisted p then
        match List.find (fun t => String.eqb (tag t) (tagName args))
                (Block.tags jsdoc) with
        | Some located =>
            emit (Report (blacklistMessage p (defaultMessage args)) None
                    located)
            >> ret (Scalar (JsBool false))
        | None => ret (Scalar (JsBool false))
        end
      else
        match p with
        | Object _ replacement =>
            ret (if allowObjectReturn args then p else Scalar replacement)
        | Scalar _ => ret p
        end
  end.

(** Modelled from the spec: [utils.changeTag] is defined outside the rule's
    file.  Section 4.4: the fix strips the named portions of the tag and
    preserves the rest; the given token texts replace those of the tag, every
    other token is kept. *)
Definition specChangeTag (tagIndex : nat) (changes : gmap string string)
    (jsdoc : Block.t) : Block.t :=
  {| Block.description := Block.description jsdoc;
     Block.tags :=
       alter (fun t =>
                {| tag := tag t; name := name t; type := type t;
                   description := description t;
                   tokens := changes ∪ tokens t |})
             tagIndex (Block.tags jsdoc);
     Block.padding := Block.padding jsdoc |}.

(** Modelled from the spec: [utils.removeTag] is defined outside the rule's
    file.  Section 4.4: the fix removes the entire tag line, including the
    surrounding empty block padding when the comment becomes empty. *)
Definition specRemoveTag (tagIndex : nat) (opts : RemoveTagOptions)
    (jsdoc : Block.t) : Block.t :=
  let remaining := delete tagIndex (Block.tags jsdoc) in
  {| Block.description := Block.description jsdoc;
     Block.tags := remaining;
     Block.padding :=
       if removeEmptyBlock opts && bool_decide (remaining = [])
          && negb (nonEmpty (trim (Block.description jsdoc)))
       then false
       else Block.padding jsdoc |}.

(** The [utils] object of one comment, as the specification describes it. *)
Definition specUtils (settings : Settings) (jsdoc : Block.t) : Utils :=
  {| isValidTag := specIsValidTag;
     getPreferredTagName :=
       specGetPreferredTagName (tagNamePreference settings) jsdoc;
     changeTag := specChangeTag;
     removeTag := specRemoveTag |}.

(** ** Definitions used to state the properties *)

(** The classifier of lines 112-130 with the test of lines 121-123 left out:
    the walk alone decides.  It is compared with [tagIsRedundantWhenTyped]
    below. *)
Definition tagIsRedundantWhenTypedWalkOnly (filename : string)
    (node : astNode) (jsdocTag : JsdocTag) : M bool :=
  if negb (has typedTagsUnnecessaryOutsideDeclare (tag jsdocTag)) then
    ret false
  else if String.eqb (name jsdocTag) "default" then ret false
  else
    let* ambient := lift (isInAmbientContext filename node) in
    if ambient then ret false else ret true.

(** The pattern that matches the text [w] literally. *)
Fixpoint literal (w : string) : list atom :=
  match w with
  | EmptyString => []
  | String c w' => Char c :: literal w'
  end.

(** The last character of [w], or [prev] when [w] is empty. *)
Fixpoint lastOr (prev : option ascii) (w : string) : option ascii :=
  match w with
  | EmptyString => prev
  | String c w' => lastOr (Some c) w'
  end.

(** [w] occurs in [text] between [before] and [after], and a word boundary
    follows it: exactly one of the last character of [w] and the first
    character of [after] is a word character. *)
Definition wholeWordAt (w text before after : string) : Prop :=
  text = before +:+ w +:+ after ∧
  xorb (wordBefore (lastOr None w)) (wordAfter after) = true.

(** The occurrence between [before] and [after] is the leftmost one. *)
Definition firstWholeWordAt (w text before after : string) : Prop :=
  wholeWordAt w text before after ∧
  ∀ before' after', wholeWordAt w text before' after' →
    (String.length before <= String.length before')%nat.

(** No dollar sign occurs in [s]. *)
Fixpoint dollarFree (s : string) : bool :=
  match s with
  | EmptyString => true
  | String c s' => negb (Ascii.eqb c "$") && dollarFree s'
  end.

(** The two messages of the typed-redundancy reports that name the tag. *)
Definition alwaysRedundantMessage (tagName : string) : string :=
  "'@" +:+ tagName +:+ "' is redundant when using a type system.".

Definition outsideAmbientMessage (tagName : string) : string :=
  "'@" +:+ tagName +:+
  "' is redundant outside of ambient (`declare`/`.d.ts`) contexts when using a type system.".

(** Sample inputs. *)
Definition programNode : astNode := Node "Program" None NullNode.

Definition plainClass : astNode := Node "ClassDeclaration" None programNode.

Definition plainVariable : astNode :=
  Node "VariableDeclaration" None programNode.

Definition declaredClass : astNode :=
  Node "ClassDeclaration" (Some true) programNode.

Definition methodOfDeclaredClass : astNode :=
  Node "MethodDefinition" None (Node "ClassBody" None declaredClass).

Definition orphanNode : astNode := Node "ClassDeclaration" None NullNode.

Definition sampleTag (tagName namePath text : string) : JsdocTag :=
  {| tag := tagName; name := namePath; type := "T"; description := text;
     tokens :=
       <["tag" := "@" +:+ tagName]>
         (<["postTag" := " "]>
            (<["type" := "{T}"]>
               (<["postType" := " "]>
                  (<["name" := namePath]>
                     (<["description" := text]> ∅))))) |}.

Definition typedOptions : Options :=
  {| definedTags := []; jsxTags := false; typed := true |}.

Definition jsxTypedOptions : Options :=
  {| definedTags := []; jsxTags := true; typed := true |}.

Definition untypedOptions : Options :=
  {| definedTags := []; jsxTags := false; typed := false |}.

Definition noSettings : Settings :=
  {| tagNamePreference := ∅; structuredTags := ∅ |}.

Definition sampleBlock (tags : list JsdocTag) : Block.t :=
  {| Block.description := ""; Block.tags := tags; Block.padding := true |}.

(** ** Definitions used to state further properties *)

(** Every character of [s] is white space. *)
Fixpoint allWhiteSpace (s : string) : bool :=
  match s with
  | EmptyString => true
  | String c s' => isWhiteSpace c && allWhiteSpace s'
  end.

(** The node reached from [n] by going down through the nodes of [path],
    given by their [type] and [declare], the innermost first. *)
Fixpoint nest (path : list (string * option bool)) (n : astNode) : astNode :=
  match path with
  | [] => n
  | (type, declare) :: path' => Node type declare (nest path' n)
  end.

(** No node of [path] is a [Program]. *)
Definition belowProgram (path : list (string * option bool)) : bool :=
  forallb (fun entry => negb (String.eqb entry.1 "Program")) path.

(** A preference value that is neither falsy, a string, nor an object. *)
Definition invalidPreference (p : preference) : bool :=
  match p with
  | Scalar (JsString _) => false
  | Scalar v => truthy v
  | Object _ _ => false
  end.

(** The value the callback of lines 83-100 answers for a preference value. *)
Definition replacementOf (p : preference) : scalar :=
  match p with
  | Scalar (JsString s) => JsString s
  | Scalar _ => JsUndefined
  | Object _ replacement => replacement
  end.

(** The fixer of a report. *)
Definition diagnosticFixer (d : diagnostic) : option fixer :=
  match d with
  | SettingsReport _ => None
  | Report _ f _ => f
  end.

(** What the fixer of a report holds of the tag the report is placed on: a
    handler holds that tag and its index among [tags]; a replace fixer holds
    the name of that tag, which is one of [tags], and a replacement which is
    not that name.  (A replace fixer holds no position: which occurrence of
    the name it rewrites is a matter of the comment text.) *)
Definition fixerCapturesTag (tags : list JsdocTag) (d : diagnostic) : Prop :=
  match d with
  | Report _ (Some (TypeRemovalFixer t i _)) located =>
      located = t ∧ tags !! i = Some t
  | Report _ (Some (ReplaceFixer n p)) located =>
      n = tag located ∧ located ∈ tags ∧ p ≠ JsString n
  | _ => True
  end.

(** The message of the settings report of line 95. *)
Definition invalidPreferenceMessage : string :=
  "Invalid `settings.jsdoc.tagNamePreference`. Values must be falsy, a string, or an object.".

(** The answer of the typed check in closed form, for a declaration below a
    [Program] root: typed mode is on, and the name is always redundant, or
    it is redundant outside ambient contexts, the name path is not the word
    [default] and neither a [declare] marker below the root nor the file
    name makes the context ambient, or the tag is a nameless [template]. *)
Definition typedVerdict (filename : string) (node : astNode)
    (options : Options) (jsdocTag : JsdocTag) : bool :=
  typed options
  && (has typedTagsAlwaysUnnecessary (tag jsdocTag)
      || has typedTagsUnnecessaryOutsideDeclare (tag jsdocTag)
         && negb (String.eqb (name jsdocTag) "default")
         && negb (declaredBelowRoot node || endsWith filename ".d.ts")
      || String.eqb (tag jsdocTag) "template"
         && String.eqb (name jsdocTag) "").

(** Sample settings: one renamed tag, one forbidden tag, one invalid value. *)
Definition sampleSettings : Settings :=
  {| tagNamePreference :=
       <["arg" := Scalar (JsString "param")]>
         (<["todo" := Object (Some "No todo notes.") (JsBool false)]>
            (<["virtual" := Scalar (JsBool true)]> ∅));
     structuredTags := {[ "route" ]} |}.

(** * Properties *)

(** ** The writer monad *)

Lemma bind_ret_l {A B : Type} (a : A) (f : A -> M B) : bind (ret a) f = f a.
Proof. unfold bind, ret. destruct (f a) as [ds r]. reflexivity. Qed.

Lemma bind_lift_throw {A B : Type} (e : error) (f : A -> M B) :
  bind (lift (Throw e)) f = lift (Throw e).
Proof. reflexivity. Qed.

Lemma bind_lift_normal {A B : Type} (a : A) (f : A -> M B) :
  bind (lift (Normal a)) f = f a.
Proof. apply bind_ret_l. Qed.

Lemma bind_emit {B : Type} (d : diagnostic) (f : unit -> M B) :
  bind (emit d) f = (d :: (f tt).1, (f tt).2).
Proof. unfold bind, emit. destruct (f tt) as [ds r]. reflexivity. Qed.

(** ** The tag-name sets *)

Lemma has_true (s : gset string) (x : string) : has s x = true ↔ x ∈ s.
Proof. unfold has. rewrite bool_decide_eq_true. reflexivity. Qed.

Lemma has_false (s : gset string) (x : string) : has s x = false ↔ x ∉ s.
Proof. unfold has. rewrite bool_decide_eq_false. reflexivity. Qed.

(** No JSX pragma name is in either of the typed-mode sets. *)
Lemma jsx_not_typed (x : string) :
  x ∈ jsxTagNames →
  (x ∉ typedTagsAlwaysUnnecessary) ∧ (x ∉ typedTagsUnnecessaryOutsideDeclare).
Proof.
  unfold jsxTagNames. intros Hx.
  assert (Hcases : x = "jsx" ∨ x = "jsxFrag" ∨ x = "jsxImportSource"
                   ∨ x = "jsxRuntime").
  { set_unfold. tauto. }
  destruct Hcases as [-> | [-> | [-> | ->]]];
    split; apply has_false; vm_compute; reflexivity.
Qed.

Lemma typed_not_jsx (x : string) :
  x ∈ typedTagsAlwaysUnnecessary ∨ x ∈ typedTagsUnnecessaryOutsideDeclare →
  has jsxTagNames x = false.
Proof.
  intros Hx. apply has_false. intros Hjsx.
  destruct (jsx_not_typed x Hjsx) as [Ha Ho]. destruct Hx; contradiction.
Qed.

(** ** The ambient-context walk *)

(** The walk on any finite chain: it stops at the first node that is a
    [Program] or carries [declare]; a chain with neither ends in a read of
    [type] on a null reference. *)
Lemma isInAmbientContext_cases (filename : string) (n : astNode) :
  isInAmbientContext filename n =
  if declaredBelowRoot n then Normal true
  else if rooted n then Normal (endsWith filename ".d.ts")
  else Throw TypeError.
Proof.
  induction n as [| type declare parent IH]; simpl.
  - reflexivity.
  - destruct (String.eqb type "Program"); simpl.
    + reflexivity.
    + destruct (Boolean declare); simpl.
      * reflexivity.
      * exact IH.
Qed.

Lemma rooted_declarationFile_ambient (filename : string) (n : astNode) :
  rooted n = true → endsWith filename ".d.ts" = true →
  isInAmbientContext filename n = Normal true.
Proof.
  intros Hroot Hdts. rewrite isInAmbientContext_cases, Hroot, Hdts.
  destruct (declaredBelowRoot n); reflexivity.
Qed.

Lemma plain_not_declarationFile (filename : string) (n : astNode) :
  isInAmbientContext filename n = Normal false →
  endsWith filename ".d.ts" = false.
Proof.
  rewrite isInAmbientContext_cases.
  destruct (declaredBelowRoot n); [discriminate |].
  destruct (rooted n); [| discriminate].
  intros [= H]. exact H.
Qed.

(** C4, as amended.  On every node whose ancestor chain holds a [Program]
    root the walk completes normally: it answers [true] when a node below
    the first [Program] carries [declare], and otherwise answers at that
    first [Program] whether the file name ends in [.d.ts].  Nothing above the
    first root is read. *)
Theorem isInAmbientContext_rooted (filename : string) (n : astNode) :
  rooted n = true →
  isInAmbientContext filename n =
  Normal (declaredBelowRoot n || endsWith filename ".d.ts").
Proof.
  intros Hroot. rewrite isInAmbientContext_cases, Hroot.
  destruct (declaredBelowRoot n); reflexivity.
Qed.

Lemma isInAmbientContext_rooted_witness :
  rooted methodOfDeclaredClass = true ∧
  isInAmbientContext "shapes.ts" methodOfDeclaredClass = Normal true.
Proof.
  split; [reflexivity |].
  exact (isInAmbientContext_rooted "shapes.ts" methodOfDeclaredClass eq_refl).
Defined.

(** C4, the claim as stated fails: a node without [declare] and without a
    further ancestor is not classified as non-ambient, the walk raises
    [TypeError] on the null parent. *)
Lemma isInAmbientContext_orphan_throws :
  rooted orphanNode = false ∧ declaredBelowRoot orphanNode = false ∧
  isInAmbientContext "shapes.ts" orphanNode = Throw TypeError.
Proof. repeat split. Qed.

(** ** The typed-redundancy classifier *)

(** On a declaration below a [Program] root of a file named [*.d.ts] the
    classifier of lines 112-130 never answers [true]. *)
Lemma tagIsRedundantWhenTyped_declarationFile
    (filename type : string) (declare : option bool) (parent : astNode)
    (jsdocTag : JsdocTag) :
  rooted parent = true → endsWith filename ".d.ts" = true →
  tagIsRedundantWhenTyped filename (Node type declare parent) jsdocTag
  = ret false.
Proof.
  intros Hroot Hdts. unfold tagIsRedundantWhenTyped.
  destruct (negb _); [reflexivity |].
  destruct (String.eqb (name jsdocTag) "default"); [reflexivity |].
  rewrite Hdts. cbn [nodeParent]. rewrite bind_lift_normal.
  destruct parent as [| ptype pdeclare grand]; [discriminate |].
  cbn [nodeType]. rewrite bind_lift_normal, bind_ret_l.
  destruct (String.eqb ptype "Program") eqn:Hp; [reflexivity |].
  rewrite rooted_declarationFile_ambient; [| | exact Hdts].
  - rewrite bind_lift_normal. reflexivity.
  - change (String.eqb type "Program"
            || rooted (Node ptype pdeclare grand) = true).
    rewrite Hroot. apply orb_true_r.
Qed.

(** The test of lines 121-123 never decides: on a declaration below a
    [Program] root, whatever the file name, the classifier agrees with the
    one that has the walk only. *)
Lemma tagIsRedundantWhenTyped_walkOnly
    (filename type : string) (declare : option bool) (parent : astNode)
    (jsdocTag : JsdocTag) :
  rooted parent = true →
  tagIsRedundantWhenTyped filename (Node type declare parent) jsdocTag
  = tagIsRedundantWhenTypedWalkOnly filename (Node type declare parent)
      jsdocTag.
Proof.
  intros Hroot.
  destruct (endsWith filename ".d.ts") eqn:Hdts.
  - rewrite tagIsRedundantWhenTyped_declarationFile by assumption.
    unfold tagIsRedundantWhenTypedWalkOnly.
    destruct (negb _); [reflexivity |].
    destruct (String.eqb (name jsdocTag) "default"); [reflexivity |].
    rewrite rooted_declarationFile_ambient; [reflexivity | | exact Hdts].
    cbn [rooted]. rewrite Hroot. apply orb_true_r.
  - unfold tagIsRedundantWhenTyped, tagIsRedundantWhenTypedWalkOnly.
    rewrite Hdts. rewrite bind_ret_l. reflexivity.
Qed.

(** When the classifier of lines 148-168 answers [true] it has made exactly
    one report, on the tag itself, with the type-removal handler; and the tag
    name is in one of the two sets or is [template]. *)
Lemma checkTagForTypedValidity_true
    (filename : string) (node : astNode) (jsdocTag : JsdocTag)
    (tagIndex : nat) (ds : list diagnostic) :
  checkTagForTypedValidity filename node jsdocTag tagIndex = (ds, Normal true)
  → (∃ message additional,
       ds = [Report message
               (Some (TypeRemovalFixer jsdocTag tagIndex additional))
               jsdocTag]
       ∧ additional =
           (if has typedTagsAlwaysUnnecessary (tag jsdocTag)
            then <["postTag" := ""]> (<["tag" := ""]> ∅) else ∅))
    ∧ (tag jsdocTag ∈ typedTagsAlwaysUnnecessary
       ∨ tag jsdocTag ∈ typedTagsUnnecessaryOutsideDeclare
       ∨ tag jsdocTag = "template").
Proof.
  unfold checkTagForTypedValidity, reportWithTypeRemovalFixer.
  destruct (has typedTagsAlwaysUnnecessary (tag jsdocTag)) eqn:Halways.
  - rewrite bind_emit. cbn. intros [= <-]. split.
    + eexists _, _. split; reflexivity.
    + left. apply has_true. exact Halways.
  - unfold tagIsRedundantWhenTyped.
    destruct (has typedTagsUnnecessaryOutsideDeclare (tag jsdocTag))
      eqn:Houtside; cbn [negb].
    + destruct (tagIsRedundantWhenTyped filename node jsdocTag)
        as [ds0 [[|] | e]] eqn:Hred;
        unfold tagIsRedundantWhenTyped in Hred;
        rewrite Houtside in Hred; cbn [negb] in Hred; rewrite Hred.
      * assert (ds0 = []) as ->.
        { revert Hred.
          destruct (String.eqb (name jsdocTag) "default"); [intros [= <-]; reflexivity |].
          destruct (endsWith filename ".d.ts").
          - destruct (nodeParent node) as [p | e]; [| discriminate].
            rewrite bind_lift_normal.
            destruct (nodeType p) as [t | e]; [| discriminate].
            rewrite bind_lift_normal, bind_ret_l.
            destruct (String.eqb t "Program"); [discriminate |].
            destruct (isInAmbientContext filename node) as [[|] | e];
              cbn; congruence.
          - rewrite bind_ret_l.
            destruct (isInAmbientContext filename node) as [[|] | e];
              cbn; congruence. }
        cbn. intros [= <-]. split.
        -- eexists _, _. split; reflexivity.
        -- right. left. apply has_true. exact Houtside.
      * cbn.
        destruct (String.eqb (tag jsdocTag) "template") eqn:Htemplate;
          [| destruct ds0; discriminate].
        apply String.eqb_eq in Htemplate. rewrite Htemplate in Houtside.
        vm_compute in Houtside. discriminate.
      * cbn. discriminate.
    + rewrite bind_ret_l.
      destruct (String.eqb (tag jsdocTag) "template") eqn:Htemplate;
        cbn [andb]; [| discriminate].
      destruct (negb (nonEmpty (name jsdocTag))); [| discriminate].
      rewrite bind_emit. cbn. intros [= <-]. split.
      * eexists _, _. split; reflexivity.
      * right. right. apply String.eqb_eq. exact Htemplate.
Qed.

(** ** The loop body: precedence of the checks *)

(** C5.  With the [jsxTags] option on, a tag whose name is one of the four
    JSX pragma names is skipped: the loop body reports nothing and completes
    normally, whatever the helpers, the file, the node, the settings, the
    other options and the tag's other fields are. *)
Theorem jsx_exemption_dominates
    (utils : Utils) (filename : string) (node : astNode)
    (settings : Settings) (options : Options)
    (definedPreferred : list scalar) (jsdocTag : JsdocTag) (tagIndex : nat) :
  jsxTags options = true →
  tag jsdocTag ∈ jsxTagNames →
  checkTag utils filename node settings options definedPreferred jsdocTag
    tagIndex = ([], Normal tt).
Proof.
  intros Hjsx Hname. unfold checkTag.
  apply has_true in Hname. rewrite Hjsx, Hname. reflexivity.
Qed.

Lemma jsx_exemption_dominates_witness :
  checkTag (specUtils noSettings (sampleBlock [sampleTag "jsxFrag" "" ""]))
    "view.ts" NullNode noSettings jsxTypedOptions []
    (sampleTag "jsxFrag" "" "") 0 = ([], Normal tt).
Proof.
  apply jsx_exemption_dominates; [reflexivity |].
  apply has_true. vm_compute. reflexivity.
Defined.

(** C6.  In typed mode a tag whose name is in the always-redundant set is
    reported as redundant when using a type system, with the type-removal
    handler, and nothing else is reported for it: in every file, on every
    node (ambient or not, even none), under every setting.  The JSX exemption
    cannot apply, no name of the set being a JSX pragma name. *)
Theorem always_redundant_reported
    (utils : Utils) (filename : string) (node : astNode)
    (settings : Settings) (options : Options)
    (definedPreferred : list scalar) (jsdocTag : JsdocTag) (tagIndex : nat) :
  typed options = true →
  tag jsdocTag ∈ typedTagsAlwaysUnnecessary →
  checkTag utils filename node settings options definedPreferred jsdocTag
    tagIndex
  = ([Report (alwaysRedundantMessage (tag jsdocTag))
        (Some (TypeRemovalFixer jsdocTag tagIndex
                 (<["postTag" := ""]> (<["tag" := ""]> ∅))))
        jsdocTag],
     Normal tt).
Proof.
  intros Htyped Hname. unfold checkTag.
  rewrite (typed_not_jsx (tag jsdocTag)) by (left; exact Hname).
  rewrite andb_false_r.
  unfold typedCheck, checkTagForTypedValidity, reportWithTypeRemovalFixer.
  apply has_true in Hname. rewrite Htyped, Hname.
  reflexivity.
Qed.

Lemma always_redundant_reported_witness :
  checkTag (specUtils noSettings (sampleBlock [sampleTag "typedef" "" ""]))
    "shapes.ts" plainClass noSettings jsxTypedOptions []
    (sampleTag "typedef" "" "") 0
  = ([Report "'@typedef' is redundant when using a type system."
        (Some (TypeRemovalFixer (sampleTag "typedef" "" "") 0
                 (<["postTag" := ""]> (<["tag" := ""]> ∅))))
        (sampleTag "typedef" "" "")],
     Normal tt).
Proof.
  apply (always_redundant_reported _ "shapes.ts" plainClass noSettings
           jsxTypedOptions [] (sampleTag "typedef" "" "") 0);
    [reflexivity |].
  apply has_true. vm_compute. reflexivity.
Defined.

(** C9.  In typed mode, once the classifier has judged a tag redundant the
    loop body ends there: what it reports for the tag is exactly the one
    report of the classifier.  Neither [utils.isValidTag] nor
    [utils.getPreferredTagName] takes part, the result being the same for
    all helpers, settings and allowed names. *)
Theorem typed_redundant_stops
    (utils : Utils) (filename : string) (node : astNode)
    (settings : Settings) (options : Options)
    (definedPreferred : list scalar) (jsdocTag : JsdocTag) (tagIndex : nat)
    (ds : list diagnostic) :
  typed options = true →
  checkTagForTypedValidity filename node jsdocTag tagIndex
  = (ds, Normal true) →
  checkTag utils filename node settings options definedPreferred jsdocTag
    tagIndex = (ds, Normal tt)
  ∧ length ds = 1.
Proof.
  intros Htyped Hcheck.
  destruct (checkTagForTypedValidity_true _ _ _ _ _ Hcheck)
    as [(message & additional & -> & _) Hname].
  split; [| reflexivity].
  unfold checkTag.
  assert (Hjsx : has jsxTagNames (tag jsdocTag) = false).
  { destruct Hname as [H | [H | H]].
    - apply typed_not_jsx. left. exact H.
    - apply typed_not_jsx. right. exact H.
    - rewrite H. vm_compute. reflexivity. }
  rewrite Hjsx, andb_false_r.
  unfold typedCheck. rewrite Htyped, Hcheck. reflexivity.
Qed.

Lemma typed_redundant_stops_witness :
  checkTag
    (specUtils
       {| tagNamePreference := <["typedef" := Scalar (JsBool false)]> ∅;
          structuredTags := ∅ |}
       (sampleBlock [sampleTag "typedef" "" ""]))
    "shapes.ts" plainClass
    {| tagNamePreference := <["typedef" := Scalar (JsBool false)]> ∅;
       structuredTags := ∅ |}
    typedOptions [] (sampleTag "typedef" "" "") 0
  = ([Report "'@typedef' is redundant when using a type system."
        (Some (TypeRemovalFixer (sampleTag "typedef" "" "") 0
                 (<["postTag" := ""]> (<["tag" := ""]> ∅))))
        (sampleTag "typedef" "" "")],
     Normal tt)
  ∧ length
      [Report "'@typedef' is redundant when using a type system."
         (Some (TypeRemovalFixer (sampleTag "typedef" "" "") 0
                  (<["postTag" := ""]> (<["tag" := ""]> ∅))))
         (sampleTag "typedef" "" "")] = 1.
Proof.
  apply (typed_redundant_stops _ "shapes.ts" plainClass _ typedOptions []
           (sampleTag "typedef" "" "") 0);
    [reflexivity |].
  vm_compute. reflexivity.
Defined.

(** A tag for which the loop body reports nothing and completes normally
    leaves no trace in the pass over the comment. *)
Lemma forEachTag_silent_tag
    (utils : Utils) (filename : string) (node : astNode)
    (settings : Settings) (options : Options)
    (definedPreferred : list scalar) (jsdocTag : JsdocTag)
    (rest : list JsdocTag) (tagIndex : nat) :
  checkTag utils filename node settings options definedPreferred jsdocTag
    tagIndex = ([], Normal tt) →
  forEachTag utils filename node settings options definedPreferred
    (jsdocTag :: rest) tagIndex
  = forEachTag utils filename node settings options definedPreferred rest
      (S tagIndex).
Proof.
  intros Hsilent. cbn [forEachTag]. rewrite Hsilent. unfold bind.
  destruct (forEachTag _ _ _ _ _ _ rest (S tagIndex)) as [ds r].
  reflexivity.
Qed.

(** The reports of the loop start with the reports of the body for the first
    tag. *)
Lemma forEachTag_reports_cons
    (utils : Utils) (filename : string) (node : astNode)
    (settings : Settings) (options : Options)
    (definedPreferred : list scalar) (jsdocTag : JsdocTag)
    (rest : list JsdocTag) (tagIndex : nat) (ds : list diagnostic) :
  checkTag utils filename node settings options definedPreferred jsdocTag
    tagIndex = (ds, Normal tt) →
  reports (forEachTag utils filename node settings options definedPreferred
             (jsdocTag :: rest) tagIndex)
  = ds ++ reports (forEachTag utils filename node settings options
                     definedPreferred rest (S tagIndex)).
Proof.
  intros Hbody. cbn [forEachTag]. rewrite Hbody. unfold bind, reports.
  destruct (forEachTag _ _ _ _ _ _ rest (S tagIndex)) as [ds' r].
  reflexivity.
Qed.

(** ** The rule for tags redundant outside ambient contexts *)

(** C1, the code at the failing input.  The test of line 117 compares the
    name path of the tag ([jsdocTag.name]) with the word [default], not the
    tag name ([jsdocTag.tag]).  A tag [@default 5] on a plain variable
    declaration of a [.ts] file is therefore reported as redundant outside
    of ambient contexts. *)
Theorem default_tag_reported (utils : Utils) :
  checkTag utils "values.ts" plainVariable noSettings typedOptions []
    (sampleTag "default" "5" "") 0
  = ([Report
        "'@default' is redundant outside of ambient (`declare`/`.d.ts`) contexts when using a type system."
        (Some (TypeRemovalFixer (sampleTag "default" "5" "") 0 ∅))
        (sampleTag "default" "5" "")],
     Normal tt).
Proof. vm_compute. reflexivity. Qed.

(** What line 117 does exempt: any tag of the set whose name path is the
    word [default]. *)
Lemma default_name_path_exempt
    (filename : string) (node : astNode) (jsdocTag : JsdocTag) :
  name jsdocTag = "default" →
  tagIsRedundantWhenTyped filename node jsdocTag = ret false.
Proof.
  intros Hname. unfold tagIsRedundantWhenTyped. rewrite Hname.
  destruct (negb _); reflexivity.
Qed.

(** The rule of lines 112-130 and 157-160 as the code has it.  In typed
    mode, for a tag whose name is in the redundant-outside-ambient set and
    not in the always-redundant set, on a declaration below a [Program]
    root: when the walk finds the declaration in an ambient context the
    classifier reports nothing and answers [false]; when the walk finds it
    in a plain context the classifier makes the redundant-outside-ambient
    report and answers [true], unless the test of line 117 finds the word
    [default] as the name path of the tag. *)
Lemma outside_ambient_rule
    (filename type : string) (declare : option bool) (parent : astNode)
    (options : Options) (jsdocTag : JsdocTag) (tagIndex : nat) :
  typed options = true →
  tag jsdocTag ∈ typedTagsUnnecessaryOutsideDeclare →
  tag jsdocTag ∉ typedTagsAlwaysUnnecessary →
  rooted parent = true →
  (isInAmbientContext filename (Node type declare parent) = Normal true →
   typedCheck filename (Node type declare parent) options jsdocTag tagIndex
   = ([], Normal false))
  ∧ (isInAmbientContext filename (Node type declare parent) = Normal false →
     name jsdocTag ≠ "default" →
     typedCheck filename (Node type declare parent) options jsdocTag tagIndex
     = ([Report (outsideAmbientMessage (tag jsdocTag))
           (Some (TypeRemovalFixer jsdocTag tagIndex ∅)) jsdocTag],
        Normal true)).
Proof.
  intros Htyped Houtside Halways Hroot.
  assert (Htemplate : String.eqb (tag jsdocTag) "template" = false).
  { apply String.eqb_neq. intros Heq. rewrite Heq in Houtside.
    apply has_true in Houtside. vm_compute in Houtside. discriminate. }
  apply has_false in Halways.
  unfold typedCheck, checkTagForTypedValidity. rewrite Htyped, Halways.
  rewrite tagIsRedundantWhenTyped_walkOnly by exact Hroot.
  unfold tagIsRedundantWhenTypedWalkOnly.
  apply has_true in Houtside. rewrite Houtside. cbn [negb].
  split.
  - intros Hambient. rewrite Hambient.
    destruct (String.eqb (name jsdocTag) "default");
      rewrite ?bind_lift_normal, bind_ret_l, Htemplate; reflexivity.
  - intros Hplain Hname. rewrite Hplain.
    apply String.eqb_neq in Hname. rewrite Hname.
    rewrite bind_lift_normal, bind_ret_l.
    unfold reportWithTypeRemovalFixer. rewrite bind_emit. reflexivity.
Qed.

Lemma outside_ambient_rule_witness :
  typedCheck "shapes.ts" declaredClass typedOptions
    (sampleTag "abstract" "" "") 0 = ([], Normal false)
  ∧ typedCheck "shapes.ts" plainClass typedOptions
      (sampleTag "abstract" "" "") 0
    = ([Report
          "'@abstract' is redundant outside of ambient (`declare`/`.d.ts`) contexts when using a type system."
          (Some (TypeRemovalFixer (sampleTag "abstract" "" "") 0 ∅))
          (sampleTag "abstract" "" "")],
       Normal true).
Proof.
  assert (Hin : tag (sampleTag "abstract" "" "")
                ∈ typedTagsUnnecessaryOutsideDeclare).
  { apply has_true. vm_compute. reflexivity. }
  assert (Hout : tag (sampleTag "abstract" "" "")
                 ∉ typedTagsAlwaysUnnecessary).
  { apply has_false. vm_compute. reflexivity. }
  split.
  - apply (outside_ambient_rule "shapes.ts" "ClassDeclaration" (Some true)
             programNode typedOptions (sampleTag "abstract" "" "") 0
             eq_refl Hin Hout eq_refl).
    reflexivity.
  - apply (outside_ambient_rule "shapes.ts" "ClassDeclaration" None
             programNode typedOptions (sampleTag "abstract" "" "") 0
             eq_refl Hin Hout eq_refl).
    + reflexivity.
    + discriminate.
Defined.

(** C7, the code at the failing input.  [@namespace default] on a plain
    class of a [.ts] file bears a name of the redundant-outside-ambient set
    which is not in the always-redundant set, typed mode is on and the
    context is not ambient; yet the typed check reports nothing and the
    loop body goes on to the naming policy, because the test of line 117
    finds the word [default] as the name path of the tag.  The same tag with
    any other name path, here [Shapes], is reported.  This is the defect of
    C1: the test reads [jsdocTag.name] where the tag name is meant. *)
Theorem namespace_default_not_reported :
  has typedTagsUnnecessaryOutsideDeclare "namespace" = true
  ∧ has typedTagsAlwaysUnnecessary "namespace" = false
  ∧ isInAmbientContext "shapes.ts" plainClass = Normal false
  ∧ typedCheck "shapes.ts" plainClass typedOptions
      (sampleTag "namespace" "default" "") 0 = ([], Normal false)
  ∧ typedCheck "shapes.ts" plainClass typedOptions
      (sampleTag "namespace" "Shapes" "") 0
    = ([Report
          "'@namespace' is redundant outside of ambient (`declare`/`.d.ts`) contexts when using a type system."
          (Some (TypeRemovalFixer (sampleTag "namespace" "Shapes" "") 0 ∅))
          (sampleTag "namespace" "Shapes" "")],
       Normal true).
Proof. repeat split; vm_compute; reflexivity. Qed.

(** C10.  On a declaration below a [Program] root in a file whose name ends
    in [.d.ts], at any depth: the walk answers [true]; the classifier of
    lines 112-130 answers [false] for every tag; and for a tag outside the
    always-redundant set the typed check reports nothing but, possibly, the
    nameless [@template].  The test of lines 121-123 is never what decides:
    in every file, the classifier agrees with the one that has the walk
    only. *)
Theorem declaration_file_exempt
    (filename type : string) (declare : option bool) (parent : astNode) :
  rooted parent = true →
  (endsWith filename ".d.ts" = true →
   isInAmbientContext filename (Node type declare parent) = Normal true
   ∧ (∀ jsdocTag,
        tagIsRedundantWhenTyped filename (Node type declare parent) jsdocTag
        = ret false)
   ∧ (∀ jsdocTag tagIndex,
        tag jsdocTag ∉ typedTagsAlwaysUnnecessary →
        checkTagForTypedValidity filename (Node type declare parent)
          jsdocTag tagIndex
        = if String.eqb (tag jsdocTag) "template"
             && negb (nonEmpty (name jsdocTag))
          then
            ([Report
                "'@template' without a name is redundant when using a type system."
                (Some (TypeRemovalFixer jsdocTag tagIndex ∅)) jsdocTag],
             Normal true)
          else ([], Normal false)))
  ∧ (∀ jsdocTag,
       tagIsRedundantWhenTyped filename (Node type declare parent) jsdocTag
       = tagIsRedundantWhenTypedWalkOnly filename (Node type declare parent)
           jsdocTag).
Proof.
  intros Hroot. split.
  - intros Hdts. split; [| split].
    + apply rooted_declarationFile_ambient; [| exact Hdts].
      cbn [rooted]. rewrite Hroot. apply orb_true_r.
    + intros jsdocTag.
      apply tagIsRedundantWhenTyped_declarationFile; assumption.
    + intros jsdocTag tagIndex Halways. apply has_false in Halways.
      unfold checkTagForTypedValidity. rewrite Halways.
      rewrite tagIsRedundantWhenTyped_declarationFile by assumption.
      rewrite bind_ret_l.
      destruct (String.eqb (tag jsdocTag) "template"
                && negb (nonEmpty (name jsdocTag))); reflexivity.
  - intros jsdocTag. apply tagIsRedundantWhenTyped_walkOnly. exact Hroot.
Qed.

Lemma declaration_file_exempt_witness :
  isInAmbientContext "shapes.d.ts"
    (Node "MethodDefinition" None (Node "ClassBody" None plainClass))
  = Normal true
  ∧ tagIsRedundantWhenTyped "shapes.d.ts"
      (Node "MethodDefinition" None (Node "ClassBody" None plainClass))
      (sampleTag "abstract" "" "") = ret false.
Proof.
  destruct (declaration_file_exempt "shapes.d.ts" "MethodDefinition" None
              (Node "ClassBody" None plainClass) eq_refl)
    as [Hfile _].
  destruct (Hfile eq_refl) as (Hwalk & Hrule & _).
  split; [exact Hwalk | apply Hrule].
Defined.

(** ** The type-removal handler *)

(** The token texts the handler hands to [utils.changeTag]: the type and
    what follows it are blanked; the tag and what follows it are blanked as
    well exactly when the additional changes of the always-redundant report
    are given; no other token is named. *)
Lemma typeRemovalChanges_lookup (always : bool) (k : string) :
  typeRemovalChanges
    (if always then <["postTag" := ""]> (<["tag" := ""]> ∅) else ∅) !! k
  = if bool_decide (k = "type" ∨ k = "postType"
                    ∨ (always = true ∧ (k = "tag" ∨ k = "postTag")))
    then Some "" else None.
Proof.
  unfold typeRemovalChanges.
  destruct always; rewrite lookup_union, !lookup_insert, !lookup_empty;
    repeat case_decide; subst; simpl;
    try case_bool_decide; try reflexivity; try naive_solver;
    exfalso; naive_solver.
Qed.

(** C3, as amended.  A tag that the typed check reports as redundant is
    reported once, with the type-removal handler.  When the description of
    the tag is empty after trimming, the handler calls [utils.removeTag] on
    the index of the tag with [removeEmptyBlock] set.  Otherwise it calls
    [utils.changeTag] with token texts that blank the type and what follows
    it, and that blank the tag and what follows it only for a name of the
    always-redundant set; the description, like every other token, is not
    among the tokens changed. *)
Theorem type_removal_fix
    (utils : Utils) (filename : string) (node : astNode) (options : Options)
    (jsdocTag : JsdocTag) (tagIndex : nat) (ds : list diagnostic) :
  typedCheck filename node options jsdocTag tagIndex = (ds, Normal true) →
  ∃ message additional,
    ds = [Report message
            (Some (TypeRemovalFixer jsdocTag tagIndex additional)) jsdocTag]
    ∧ (∀ jsdoc, trim (description jsdocTag) = "" →
         runTypeRemovalFixer utils jsdocTag tagIndex additional jsdoc
         = removeTag utils tagIndex {| removeEmptyBlock := true |} jsdoc)
    ∧ (∀ jsdoc, trim (description jsdocTag) ≠ "" →
         runTypeRemovalFixer utils jsdocTag tagIndex additional jsdoc
         = changeTag utils tagIndex (typeRemovalChanges additional) jsdoc)
    ∧ (∀ k, typeRemovalChanges additional !! k
            = if bool_decide
                   (k = "type" ∨ k = "postType"
                    ∨ (has typedTagsAlwaysUnnecessary (tag jsdocTag) = true
                       ∧ (k = "tag" ∨ k = "postTag")))
              then Some "" else None).
Proof.
  unfold typedCheck. destruct (typed options); [| discriminate].
  intros Hcheck.
  destruct (checkTagForTypedValidity_true _ _ _ _ _ Hcheck)
    as [(message & additional & -> & ->) _].
  eexists _, _. split; [reflexivity |]. split; [| split].
  - intros jsdoc Hblank. unfold runTypeRemovalFixer. rewrite Hblank.
    reflexivity.
  - intros jsdoc Htext. unfold runTypeRemovalFixer, nonEmpty.
    apply String.eqb_neq in Htext. rewrite Htext. reflexivity.
  - intros k. apply typeRemovalChanges_lookup.
Qed.

Lemma type_removal_fix_witness :
  ∃ message additional,
    [Report
       "'@abstract' is redundant outside of ambient (`declare`/`.d.ts`) contexts when using a type system."
       (Some (TypeRemovalFixer (sampleTag "abstract" "" "A shape.") 0 ∅))
       (sampleTag "abstract" "" "A shape.")]
    = [Report message
         (Some (TypeRemovalFixer (sampleTag "abstract" "" "A shape.") 0
                  additional))
         (sampleTag "abstract" "" "A shape.")]
    ∧ typeRemovalChanges additional !! "description" = None.
Proof.
  destruct (type_removal_fix (specUtils noSettings (sampleBlock []))
              "shapes.ts" plainClass typedOptions
              (sampleTag "abstract" "" "A shape.") 0 _ eq_refl)
    as (message & additional & Hds & _ & _ & Hkeys).
  exists message, additional. split; [exact Hds |].
  rewrite Hkeys. reflexivity.
Defined.

(** C3, the claim as stated fails: [@abstract {T} A shape.] on a plain class
    is reported as redundant outside of ambient contexts and has a
    description; the handler blanks the type only.  The tag token is not
    among the tokens changed, and the tag keeps its [@abstract]. *)
Lemma type_removal_keeps_tag_name :
  typedCheck "shapes.ts" plainClass typedOptions
    (sampleTag "abstract" "" "A shape.") 0
  = ([Report
        "'@abstract' is redundant outside of ambient (`declare`/`.d.ts`) contexts when using a type system."
        (Some (TypeRemovalFixer (sampleTag "abstract" "" "A shape.") 0 ∅))
        (sampleTag "abstract" "" "A shape.")],
     Normal true)
  ∧ trim (description (sampleTag "abstract" "" "A shape.")) = "A shape."
  ∧ typeRemovalChanges ∅ !! "tag" = None
  ∧ (λ t, (tokens t !! "tag", tokens t !! "type", tokens t !! "description"))
      <$> Block.tags
            (runTypeRemovalFixer
               (specUtils noSettings
                  (sampleBlock [sampleTag "abstract" "" "A shape."]))
               (sampleTag "abstract" "" "A shape.") 0 ∅
               (sampleBlock [sampleTag "abstract" "" "A shape."]))
    = [(Some "@abstract", Some "", Some "A shape.")].
Proof. repeat split; vm_compute; reflexivity. Qed.

(** Under the helpers of the specification, changing a tag leaves its parsed
    fields and every token that is not named as they were, and leaves the
    other tags alone. *)
Lemma specChangeTag_frame
    (tagIndex : nat) (changes : gmap string string) (jsdoc : Block.t)
    (t : JsdocTag) :
  Block.tags jsdoc !! tagIndex = Some t →
  ∃ t', Block.tags (specChangeTag tagIndex changes jsdoc) !! tagIndex
        = Some t'
        ∧ description t' = description t ∧ name t' = name t
        ∧ (∀ k, changes !! k = None → tokens t' !! k = tokens t !! k)
        ∧ (∀ k v, changes !! k = Some v → tokens t' !! k = Some v)
        ∧ (∀ i, i ≠ tagIndex →
             Block.tags (specChangeTag tagIndex changes jsdoc) !! i
             = Block.tags jsdoc !! i).
Proof.
  intros Ht. unfold specChangeTag. cbn [Block.tags].
  eexists. split.
  { rewrite list_lookup_alter_eq, Ht. reflexivity. }
  cbn. repeat split.
  - intros k Hk. rewrite lookup_union, Hk. destruct (tokens t !! k); reflexivity.
  - intros k v Hk. rewrite lookup_union, Hk. destruct (tokens t !! k); reflexivity.
  - intros i Hi. apply list_lookup_alter_ne. congruence.
Qed.

(** Under the helpers of the specification, removing a tag deletes it from
    the tags of the comment and, when that leaves a comment without tags and
    without a description, drops the padding of the block. *)
Lemma specRemoveTag_effect (tagIndex : nat) (jsdoc : Block.t) :
  Block.tags (specRemoveTag tagIndex {| removeEmptyBlock := true |} jsdoc)
  = delete tagIndex (Block.tags jsdoc)
  ∧ (delete tagIndex (Block.tags jsdoc) = [] →
     trim (Block.description jsdoc) = "" →
     Block.padding
       (specRemoveTag tagIndex {| removeEmptyBlock := true |} jsdoc)
     = false).
Proof.
  split; [reflexivity |].
  intros Hempty Hblank. unfold specRemoveTag. cbn.
  rewrite Hblank. rewrite bool_decide_eq_true_2 by exact Hempty. reflexivity.
Qed.

(** ** Forbidden tags *)

(** Every key of the preference object is among the names handed to
    [utils.isValidTag]. *)
Lemma preference_key_allowed
    (settings : Settings) (options : Options)
    (definedPreferred : list scalar) (tagName : string) (p : preference) :
  tagNamePreference settings !! tagName = Some p →
  JsString tagName ∈ allDefinedTags settings options definedPreferred.
Proof.
  intros Hp. unfold allDefinedTags, definedNonPreferredTags.
  rewrite !elem_of_app. right. right. left.
  apply list_elem_of_fmap. exists tagName. split; [reflexivity |].
  apply list_elem_of_fmap. exists (tagName, p). split; [reflexivity |].
  apply elem_of_map_to_list. exact Hp.
Qed.

(** The first tag of a comment that bears a given name, when one does. *)
Lemma find_tag_by_name (tags : list JsdocTag) (i : nat) (t : JsdocTag) :
  tags !! i = Some t →
  ∃ located,
    List.find (fun t' => String.eqb (tag t') (tag t)) tags = Some located
    ∧ located ∈ tags ∧ tag located = tag t.
Proof.
  intros Ht.
  destruct (List.find (fun t' => String.eqb (tag t') (tag t)) tags)
    as [located |] eqn:Hfind.
  - exists located. split; [reflexivity |].
    apply List.find_some in Hfind as [Hin Heq].
    split; [apply list_elem_of_In; exact Hin | apply String.eqb_eq; exact Heq].
  - exfalso.
    pose proof (List.find_none _ _ Hfind t) as Hnone. cbn beta in Hnone.
    rewrite String.eqb_refl in Hnone.
    assert (Hin : t ∈ tags) by (apply list_elem_of_lookup; eauto).
    apply list_elem_of_In in Hin. specialize (Hnone Hin). discriminate.
Qed.

(** C2, as amended.  Under the helpers of the specification, consider a tag
    of the comment that the JSX exemption does not skip and that the typed
    check does not report.  When its entry in the preference object is falsy,
    or is an object whose replacement is falsy, the loop body makes exactly
    one report, without a fixer: it bears the custom message of the entry
    when there is one and the blacklist message otherwise, and it is placed
    on the tag of the comment that bears the name.  Asked to fix, the host
    leaves the text and the parsed comment as they were. *)
Theorem forbidden_tag_reported_without_fixer
    (sourceText filename : string) (node : astNode) (settings : Settings)
    (options : Options) (jsdoc : Block.t) (definedPreferred : list scalar)
    (jsdocTag : JsdocTag) (tagIndex : nat) (p : preference) :
  Block.tags jsdoc !! tagIndex = Some jsdocTag →
  tagNamePreference settings !! tag jsdocTag = Some p →
  blacklisted p = true →
  jsxTags options && has jsxTagNames (tag jsdocTag) = false →
  typedCheck filename node options jsdocTag tagIndex = ([], Normal false) →
  ∃ located,
    checkTag (specUtils settings jsdoc) filename node settings options
      definedPreferred jsdocTag tagIndex
    = ([Report
          (blacklistMessage p
             ("Blacklisted tag found (`@" +:+ tag jsdocTag +:+ "`)"))
          None located],
       Normal tt)
    ∧ located ∈ Block.tags jsdoc
    ∧ tag located = tag jsdocTag
    ∧ applyFixer (specUtils settings jsdoc) sourceText None jsdoc
      = Some (sourceText, jsdoc).
Proof.
  intros Htag Hp Hblack Hjsx Htyped.
  destruct (find_tag_by_name _ _ _ Htag) as (located & Hfind & Hin & Hname).
  exists located. split; [| auto].
  unfold checkTag. rewrite Hjsx, Htyped.
  change (@pair (list diagnostic) (completion bool) [] (Normal false))
    with (@ret bool false).
  rewrite bind_ret_l.
  cbn [isValidTag specUtils]. unfold specIsValidTag.
  rewrite bool_decide_eq_true_2
    by (eapply preference_key_allowed; exact Hp).
  unfold checkPreference. cbn [getPreferredTagName specUtils].
  unfold specGetPreferredTagName. cbn [tagName defaultMessage].
  rewrite Hp, Hblack, Hfind. reflexivity.
Qed.

Lemma forbidden_tag_reported_without_fixer_witness :
  ∃ located,
    checkTag
      (specUtils
         {| tagNamePreference :=
              <["todo" := Object (Some "No todo notes.") (JsBool false)]> ∅;
            structuredTags := ∅ |}
         (sampleBlock [sampleTag "todo" "" "later"]))
      "shapes.ts" plainClass
      {| tagNamePreference :=
           <["todo" := Object (Some "No todo notes.") (JsBool false)]> ∅;
         structuredTags := ∅ |}
      typedOptions [] (sampleTag "todo" "" "later") 0
    = ([Report
          (blacklistMessage (Object (Some "No todo notes.") (JsBool false))
             ("Blacklisted tag found (`@"
              +:+ tag (sampleTag "todo" "" "later") +:+ "`)"))
          None located],
       Normal tt)
    ∧ located ∈ Block.tags (sampleBlock [sampleTag "todo" "" "later"])
    ∧ tag located = tag (sampleTag "todo" "" "later")
    ∧ applyFixer
        (specUtils
           {| tagNamePreference :=
                <["todo" := Object (Some "No todo notes.") (JsBool false)]>
                  ∅;
              structuredTags := ∅ |}
           (sampleBlock [sampleTag "todo" "" "later"]))
        "/** @todo later */" None
        (sampleBlock [sampleTag "todo" "" "later"])
      = Some ("/** @todo later */",
              sampleBlock [sampleTag "todo" "" "later"]).
Proof.
  apply (forbidden_tag_reported_without_fixer "/** @todo later */"
           "shapes.ts" plainClass _ typedOptions
           (sampleBlock [sampleTag "todo" "" "later"]) []
           (sampleTag "todo" "" "later") 0
           (Object (Some "No todo notes.") (JsBool false))).
  - reflexivity.
  - vm_compute. reflexivity.
  - reflexivity.
  - reflexivity.
  - vm_compute. reflexivity.
Defined.

(** C2, the claim as stated fails: a forbidden tag that an earlier check
    takes is not reported without a fixer.  With [typedef] mapped to [false]
    and typed mode on, [@typedef] is reported with the type-removal handler;
    with [jsx] mapped to [false] and the [jsxTags] option on, [@jsx] is not
    reported at all. *)
Lemma forbidden_tag_taken_by_earlier_check :
  checkTag
    (specUtils
       {| tagNamePreference := <["typedef" := Scalar (JsBool false)]> ∅;
          structuredTags := ∅ |}
       (sampleBlock [sampleTag "typedef" "" ""]))
    "shapes.ts" plainClass
    {| tagNamePreference := <["typedef" := Scalar (JsBool false)]> ∅;
       structuredTags := ∅ |}
    typedOptions [] (sampleTag "typedef" "" "") 0
  = ([Report "'@typedef' is redundant when using a type system."
        (Some (TypeRemovalFixer (sampleTag "typedef" "" "") 0
                 (<["postTag" := ""]> (<["tag" := ""]> ∅))))
        (sampleTag "typedef" "" "")],
     Normal tt)
  ∧ checkTag
      (specUtils
         {| tagNamePreference := <["jsx" := Scalar (JsBool false)]> ∅;
            structuredTags := ∅ |}
         (sampleBlock [sampleTag "jsx" "" ""]))
      "view.ts" plainClass
      {| tagNamePreference := <["jsx" := Scalar (JsBool false)]> ∅;
         structuredTags := ∅ |}
      jsxTypedOptions [] (sampleTag "jsx" "" "") 0
    = ([], Normal tt).
Proof. split; vm_compute; reflexivity. Qed.

(** * The replace fixer *)

(** ** Strings *)

Lemma app_cons (c : ascii) (s t : string) :
  String c s +:+ t = String c (s +:+ t).
Proof. reflexivity. Qed.

Lemma app_assoc_string (s t u : string) : (s +:+ t) +:+ u = s +:+ (t +:+ u).
Proof.
  induction s as [| c s IH]; [reflexivity |].
  rewrite !app_cons, IH. reflexivity.
Qed.

Lemma app_nil_r_string (s : string) : s +:+ "" = s.
Proof.
  induction s as [| c s IH]; [reflexivity |].
  rewrite app_cons, IH. reflexivity.
Qed.

Lemma app_same_length (s1 s2 t1 t2 : string) :
  s1 +:+ t1 = s2 +:+ t2 → String.length s1 = String.length s2 →
  s1 = s2 ∧ t1 = t2.
Proof.
  revert s2. induction s1 as [| c s1 IH]; intros [| c2 s2] Heq Hlen;
    try discriminate.
  - split; [reflexivity | exact Heq].
  - rewrite !app_cons in Heq. injection Heq as -> Heq.
    injection Hlen as Hlen. destruct (IH _ Heq Hlen) as [-> ->].
    split; reflexivity.
Qed.

(** ** The pattern built by the fixer *)

(** The characters [escape-string-regexp] escapes are the syntax characters
    of the pattern grammar. *)
Lemma isSyntaxCharacter_operator (c : ascii) :
  isSyntaxCharacter c = isRegExpOperator c.
Proof. destruct c as [[] [] [] [] [] [] [] []]; reflexivity. Qed.

Lemma parsePattern_escaped_char (c : ascii) (p : string) :
  parsePattern
    ((if isRegExpOperator c then String "\" (String c "")
      else if Ascii.eqb c "-" then "\x2d" else String c "") +:+ p)
  = cons (Char c) <$> parsePattern p.
Proof. destruct c as [[] [] [] [] [] [] [] []]; reflexivity. Qed.

Lemma escapeStringRegexp_cons (c : ascii) (s : string) :
  escapeStringRegexp (String c s)
  = (if isRegExpOperator c then String "\" (String c "")
     else if Ascii.eqb c "-" then "\x2d" else String c "")
    +:+ escapeStringRegexp s.
Proof.
  cbn [escapeStringRegexp].
  destruct (isRegExpOperator c); [reflexivity |].
  destruct (Ascii.eqb c "-"); reflexivity.
Qed.

Lemma parsePattern_escapeStringRegexp (t p : string) :
  parsePattern (escapeStringRegexp t +:+ p)
  = app (literal t) <$> parsePattern p.
Proof.
  induction t as [| c t IH].
  - change (escapeStringRegexp "" +:+ p) with p.
    destruct (parsePattern p); reflexivity.
  - rewrite escapeStringRegexp_cons, app_assoc_string.
    rewrite parsePattern_escaped_char, IH.
    destruct (parsePattern p); reflexivity.
Qed.

(** The pattern of line 209 always parses, to the literal text [@tagName]
    followed by a word boundary: the escaping is complete. *)
Lemma parsePattern_fixer (tagName : string) :
  parsePattern ("@" +:+ escapeStringRegexp tagName +:+ "\b")
  = Some (literal ("@" +:+ tagName) ++ [WordBoundary]).
Proof.
  change ("@" +:+ escapeStringRegexp tagName +:+ "\b")
    with (String "@" (escapeStringRegexp tagName +:+ "\b")).
  change (parsePattern (String "@" (escapeStringRegexp tagName +:+ "\b")))
    with (cons (Char "@")
            <$> parsePattern (escapeStringRegexp tagName +:+ "\b")).
  rewrite parsePattern_escapeStringRegexp. reflexivity.
Qed.

(** ** Matching *)

(** A literal followed by a boundary matches exactly where the text goes on
    with the literal and a word boundary follows it. *)
Lemma matchHere_literal (w : string) (prev : option ascii) (s m rest : string) :
  matchHere (literal w ++ [WordBoundary]) prev s = Some (m, rest)
  ↔ m = w ∧ s = w +:+ rest
    ∧ xorb (wordBefore (lastOr prev w)) (wordAfter rest) = true.
Proof.
  revert prev s m rest. induction w as [| c w IH]; intros prev s m rest.
  - cbn. destruct (xorb (wordBefore prev) (wordAfter s)) eqn:Hb.
    + split.
      * intros [= <- <-]. rewrite Hb. auto.
      * intros (-> & -> & _). reflexivity.
    + split; [discriminate |].
      intros (_ & -> & Hx). change ("" +:+ rest) with rest in Hb. congruence.
  - cbn [literal app matchHere lastOr]. destruct s as [| c' s].
    + split; [discriminate |]. intros (_ & Hs & _). discriminate.
    + destruct (Ascii.eqb c c') eqn:Hc.
      * apply Ascii.eqb_eq in Hc as <-.
        destruct (matchHere (literal w ++ [WordBoundary]) (Some c) s)
          as [[m' rest'] |] eqn:Hm; cbn.
        -- apply IH in Hm as (-> & -> & Hx). split.
           ++ intros [= <- <-]. auto.
           ++ intros (-> & Hs & _). rewrite app_cons in Hs.
              injection Hs as Hs. apply (inj (String.app w)) in Hs as <-.
              reflexivity.
        -- split; [discriminate |]. intros (-> & Hs & Hx).
           rewrite app_cons in Hs. injection Hs as ->.
           assert (Hsome : matchHere (literal w ++ [WordBoundary]) (Some c)
                             (w +:+ rest) = Some (w, rest))
             by (apply IH; auto).
           congruence.
      * split; [discriminate |]. intros (_ & Hs & _).
        rewrite app_cons in Hs. injection Hs as <- _.
        rewrite Ascii.eqb_refl in Hc. discriminate.
Qed.

Lemma lastOr_cons (prev : option ascii) (c : ascii) (w : string) :
  lastOr prev (String c w) = lastOr None (String c w).
Proof. reflexivity. Qed.

Lemma lastOr_app (prev : option ascii) (b w : string) :
  lastOr prev (b +:+ w) = lastOr (lastOr prev b) w.
Proof.
  revert prev. induction b as [| c b IH]; intros prev; [reflexivity |].
  rewrite app_cons. cbn [lastOr]. apply IH.
Qed.

(** The search answers with the leftmost position at which the pattern
    matches. *)
Lemma execFrom_Some (r : list atom) (prev : option ascii)
    (s before m after : string) :
  execFrom r prev s = Some (before, m, after) →
  ∃ s', s = before +:+ s'
        ∧ matchHere r (lastOr prev before) s' = Some (m, after)
        ∧ ∀ b1 s1, s = b1 +:+ s1 →
            (String.length b1 < String.length before)%nat →
            matchHere r (lastOr prev b1) s1 = None.
Proof.
  revert prev before. induction s as [| c s IH]; intros prev before.
  - cbn [execFrom].
    destruct (matchHere r prev "") as [[m0 rest0] |] eqn:Hm; [| discriminate].
    intros [= <- <- <-]. exists "". split; [reflexivity |].
    split; [exact Hm |]. intros b1 s1 _ Hlt. cbn in Hlt. lia.
  - cbn [execFrom].
    destruct (matchHere r prev (String c s)) as [[m0 rest0] |] eqn:Hm.
    + intros [= <- <- <-]. exists (String c s). split; [reflexivity |].
      split; [exact Hm |]. intros b1 s1 _ Hlt. cbn in Hlt. lia.
    + destruct (execFrom r (Some c) s) as [[[b' m'] a'] |] eqn:Hexec;
        [| discriminate].
      cbn. intros [= <- <- <-].
      destruct (IH _ _ Hexec) as (s' & -> & Hmatch & Hmin).
      exists s'. split; [reflexivity |]. split; [exact Hmatch |].
      intros [| c1 b1] s1 Heq Hlt.
      * change ("" +:+ s1) with s1 in Heq. subst s1. exact Hm.
      * rewrite !app_cons in Heq. injection Heq as <- Heq.
        cbn [lastOr]. apply Hmin; [exact Heq |]. cbn in Hlt. lia.
Qed.

Lemma execFrom_None (r : list atom) (prev : option ascii) (s : string) :
  execFrom r prev s = None →
  ∀ b1 s1, s = b1 +:+ s1 → matchHere r (lastOr prev b1) s1 = None.
Proof.
  revert prev. induction s as [| c s IH]; intros prev; cbn [execFrom].
  - destruct (matchHere r prev "") as [[m0 rest0] |] eqn:Hm; [discriminate |].
    intros _ [| c1 b1] s1 Heq; [| discriminate].
    change ("" +:+ s1) with s1 in Heq. subst s1. exact Hm.
  - destruct (matchHere r prev (String c s)) as [[m0 rest0] |] eqn:Hm;
      [discriminate |].
    destruct (execFrom r (Some c) s) as [[[b' m'] a'] |] eqn:Hexec;
      [discriminate |].
    intros _ [| c1 b1] s1 Heq.
    + change ("" +:+ s1) with s1 in Heq. subst s1. exact Hm.
    + rewrite app_cons in Heq. injection Heq as <- Heq.
      cbn [lastOr]. apply (IH _ Hexec). exact Heq.
Qed.

Lemma GetSubstitution_dollarFree (matched before after r : string) :
  dollarFree r = true → GetSubstitution matched before after r = r.
Proof.
  induction r as [| c r IH]; [reflexivity |].
  cbn [dollarFree GetSubstitution]. intros [Hc Hr]%andb_true_iff.
  apply negb_true_iff in Hc. rewrite Hc, (IH Hr). reflexivity.
Qed.

(** A whole-word occurrence of a non-empty word is a position at which the
    pattern of the word followed by a boundary matches. *)
Lemma wholeWordAt_matchHere (c : ascii) (w text before after : string) :
  wholeWordAt (String c w) text before after
  ↔ ∃ s', text = before +:+ s'
          ∧ matchHere (literal (String c w) ++ [WordBoundary])
              (lastOr None before) s'
            = Some (String c w, after).
Proof.
  unfold wholeWordAt. split.
  - intros [-> Hx]. eexists. split; [reflexivity |].
    apply matchHere_literal. rewrite lastOr_cons. auto.
  - intros (s' & -> & Hm). apply matchHere_literal in Hm as (_ & -> & Hx).
    rewrite lastOr_cons in Hx. auto.
Qed.

(** X1.  When the preferred name holds no dollar sign and the comment has a
    whole-word occurrence of [@tagName], the replace fixer puts
    [@preferredTagName] in the place of the leftmost such occurrence and
    leaves the text before it and the text after it as they were. *)
Theorem replace_first_whole_word
    (sourceText tagName before after : string) (preferredTagName : scalar) :
  firstWholeWordAt ("@" +:+ tagName) sourceText before after →
  dollarFree (toString preferredTagName) = true →
  runReplaceFixer sourceText tagName preferredTagName
  = Some (before +:+ ("@" +:+ toString preferredTagName) +:+ after).
Proof.
  intros [Hocc Hfirst] Hfree.
  unfold runReplaceFixer. rewrite parsePattern_fixer. cbn [mbind option_bind].
  unfold replace, exec.
  change ("@" +:+ tagName) with (String "@" tagName) in *.
  pose proof Hocc as Hocc'. apply wholeWordAt_matchHere in Hocc'
    as (s0 & Htext & Hmatch0).
  destruct (execFrom (literal (String "@" tagName) ++ [WordBoundary]) None
              sourceText) as [[[b m] a] |] eqn:Hexec.
  - apply execFrom_Some in Hexec as (s' & Hs & Hmatch & Hmin).
    assert (Hocc2 : wholeWordAt (String "@" tagName) sourceText b a).
    { apply wholeWordAt_matchHere. exists s'. split; [exact Hs |].
      pose proof Hmatch as Hm. apply matchHere_literal in Hm as (-> & _ & _).
      exact Hmatch. }
    pose proof (Hfirst _ _ Hocc2) as Hle.
    assert (Hlen : String.length before = String.length b).
    { destruct (decide (String.length before < String.length b)%nat)
        as [Hlt | Hge]; [| lia].
      rewrite (Hmin _ _ Htext Hlt) in Hmatch0. discriminate. }
    apply matchHere_literal in Hmatch as (-> & -> & _).
    destruct Hocc as [Hbefore _]. rewrite Hbefore in Hs.
    apply app_same_length in Hs as [<- Hs]; [| exact Hlen].
    apply (inj (String.app (String "@" tagName))) in Hs as <-.
    rewrite GetSubstitution_dollarFree; [reflexivity |].
    cbn [dollarFree]. exact Hfree.
  - rewrite (execFrom_None _ _ _ Hexec _ _ Htext) in Hmatch0. discriminate.
Qed.

(** X2.  Without a whole-word occurrence of [@tagName] the replace fixer
    hands the text back unchanged. *)
Theorem replace_without_occurrence
    (sourceText tagName : string) (preferredTagName : scalar) :
  (∀ before after,
     ¬ wholeWordAt ("@" +:+ tagName) sourceText before after) →
  runReplaceFixer sourceText tagName preferredTagName = Some sourceText.
Proof.
  intros Hnone.
  unfold runReplaceFixer. rewrite parsePattern_fixer. cbn [mbind option_bind].
  unfold replace, exec.
  change ("@" +:+ tagName) with (String "@" tagName) in *.
  destruct (execFrom (literal (String "@" tagName) ++ [WordBoundary]) None
              sourceText) as [[[b m] a] |] eqn:Hexec; [| reflexivity].
  exfalso. apply execFrom_Some in Hexec as (s' & Hs & Hmatch & _).
  apply (Hnone b a). apply wholeWordAt_matchHere. exists s'.
  split; [exact Hs |].
  pose proof Hmatch as Hm. apply matchHere_literal in Hm as (-> & _ & _).
  exact Hmatch.
Qed.

(** What the search finds is the leftmost whole-word occurrence. *)
Lemma exec_firstWholeWordAt (c : ascii) (w text before m after : string) :
  exec (literal (String c w) ++ [WordBoundary]) text
  = Some (before, m, after) →
  m = String c w ∧ firstWholeWordAt (String c w) text before after.
Proof.
  unfold exec. intros Hexec.
  apply execFrom_Some in Hexec as (s' & Hs & Hmatch & Hmin).
  pose proof Hmatch as Hm. apply matchHere_literal in Hm as (-> & _ & _).
  split; [reflexivity |]. split.
  - apply wholeWordAt_matchHere. exists s'. auto.
  - intros before' after' Hocc.
    apply wholeWordAt_matchHere in Hocc as (s1 & Hs1 & Hmatch1).
    destruct (decide (String.length before' < String.length before)%nat)
      as [Hlt | Hge]; [| lia].
    rewrite (Hmin _ _ Hs1 Hlt) in Hmatch1. discriminate.
Qed.

(** When the search finds nothing there is no whole-word occurrence. *)
Lemma exec_None_no_occurrence (c : ascii) (w text : string) :
  exec (literal (String c w) ++ [WordBoundary]) text = None →
  ∀ before after, ¬ wholeWordAt (String c w) text before after.
Proof.
  unfold exec. intros Hexec before after Hocc.
  apply wholeWordAt_matchHere in Hocc as (s' & Hs & Hmatch).
  rewrite (execFrom_None _ _ _ Hexec _ _ Hs) in Hmatch. discriminate.
Qed.

Lemma replace_without_occurrence_witness :
  runReplaceFixer "/** @argument a */" "arg" (JsString "param")
  = Some "/** @argument a */".
Proof.
  apply (replace_without_occurrence "/** @argument a */" "arg"
           (JsString "param")).
  apply (exec_None_no_occurrence "@" "arg"). reflexivity.
Defined.

Lemma replace_first_whole_word_witness :
  runReplaceFixer "/** @argument a @arg b @arg c */" "arg" (JsString "param")
  = Some ("/** @argument a " +:+ ("@" +:+ toString (JsString "param"))
          +:+ " b @arg c */").
Proof.
  apply (replace_first_whole_word "/** @argument a @arg b @arg c */" "arg"
           "/** @argument a " " b @arg c */" (JsString "param")).
  - apply (exec_firstWholeWordAt "@" "arg" _ _ "@arg"). reflexivity.
  - reflexivity.
Defined.

(** Under the helpers of the specification, a tag whose entry in the
    preference object is another, non-empty name, and which no earlier check
    takes, is reported with the replace fixer for that name. *)
Lemma preferred_name_reported
    (filename : string) (node : astNode) (settings : Settings)
    (options : Options) (jsdoc : Block.t) (definedPreferred : list scalar)
    (jsdocTag : JsdocTag) (tagIndex : nat) (preferred : string) :
  tagNamePreference settings !! tag jsdocTag
  = Some (Scalar (JsString preferred)) →
  preferred ≠ "" → preferred ≠ tag jsdocTag →
  jsxTags options && has jsxTagNames (tag jsdocTag) = false →
  typedCheck filename node options jsdocTag tagIndex = ([], Normal false) →
  checkTag (specUtils settings jsdoc) filename node settings options
    definedPreferred jsdocTag tagIndex
  = ([Report
        ("Invalid JSDoc tag (preference). Replace " +:+ dquote
         +:+ tag jsdocTag +:+ dquote +:+ " JSDoc tag with " +:+ dquote
         +:+ preferred +:+ dquote +:+ ".")
        (Some (ReplaceFixer (tag jsdocTag) (JsString preferred))) jsdocTag],
     Normal tt).
Proof.
  intros Hp Hnonempty Hother Hjsx Htyped.
  unfold checkTag. rewrite Hjsx, Htyped.
  change (@pair (list diagnostic) (completion bool) [] (Normal false))
    with (@ret bool false).
  rewrite bind_ret_l.
  cbn [isValidTag specUtils]. unfold specIsValidTag.
  rewrite bool_decide_eq_true_2
    by (eapply preference_key_allowed; exact Hp).
  unfold checkPreference. cbn [getPreferredTagName specUtils].
  unfold specGetPreferredTagName. cbn [tagName defaultMessage].
  rewrite Hp. cbn [blacklisted truthy].
  apply String.eqb_neq in Hnonempty. rewrite Hnonempty. cbn [negb].
  rewrite bind_ret_l. cbn [truthyPreference truthy]. rewrite Hnonempty.
  cbn [negb toString].
  rewrite bool_decide_eq_true_2 by congruence.
  reflexivity.
Qed.

(** C8, the code at the failing input.  The second argument of [replace] at
    lines 208-211 is a string, in which a dollar sign followed by a dollar
    sign, [&], a backquote or a quote is a substitution pattern.  With [ref]
    preferred as [$$ref], the tag [@ref] is reported with the replace fixer,
    and the fixer writes [@$ref]: the name put in the comment is not the
    preferred name. *)
Theorem dollar_in_preferred_name :
  checkTag
    (specUtils
       {| tagNamePreference := <["ref" := Scalar (JsString "$$ref")]> ∅;
          structuredTags := ∅ |}
       (sampleBlock [sampleTag "ref" "x" ""]))
    "shapes.ts" plainClass
    {| tagNamePreference := <["ref" := Scalar (JsString "$$ref")]> ∅;
       structuredTags := ∅ |}
    untypedOptions [] (sampleTag "ref" "x" "") 0
  = ([Report
        ("Invalid JSDoc tag (preference). Replace " +:+ dquote +:+ "ref"
         +:+ dquote +:+ " JSDoc tag with " +:+ dquote +:+ "$$ref" +:+ dquote
         +:+ ".")
        (Some (ReplaceFixer "ref" (JsString "$$ref")))
        (sampleTag "ref" "x" "")],
     Normal tt)
  ∧ runReplaceFixer "/** @ref x */" "ref" (JsString "$$ref")
    = Some "/** @$ref x */".
Proof. split; vm_compute; reflexivity. Qed.

(** * Further properties *)

(** ** The typed check on any node *)

(** X5.  In typed mode a [@template] tag without a name path is reported as
    redundant, with the type-removal handler and no additional changes, and
    nothing else is reported for it; a [@template] tag with a name path is
    left alone by the typed check.  Neither reads the node or the file name:
    both hold on every node, even none. *)
Theorem nameless_template_rule
    (utils : Utils) (filename : string) (node : astNode)
    (settings : Settings) (options : Options)
    (definedPreferred : list scalar) (jsdocTag : JsdocTag) (tagIndex : nat) :
  typed options = true →
  tag jsdocTag = "template" →
  (name jsdocTag = "" →
   checkTag utils filename node settings options definedPreferred jsdocTag
     tagIndex
   = ([Report
         "'@template' without a name is redundant when using a type system."
         (Some (TypeRemovalFixer jsdocTag tagIndex ∅)) jsdocTag],
      Normal tt))
  ∧ (name jsdocTag ≠ "" →
     typedCheck filename node options jsdocTag tagIndex = ([], Normal false)).
Proof.
  intros Htyped Htag.
  unfold checkTag, typedCheck, checkTagForTypedValidity,
    tagIsRedundantWhenTyped, reportWithTypeRemovalFixer.
  rewrite Htyped, Htag.
  change (has jsxTagNames "template") with false.
  change (has typedTagsAlwaysUnnecessary "template") with false.
  change (has typedTagsUnnecessaryOutsideDeclare "template") with false.
  rewrite andb_false_r. cbn [negb]. rewrite !bind_ret_l. cbn [String.eqb].
  split.
  - intros ->. reflexivity.
  - intros Hname. apply String.eqb_neq in Hname. unfold nonEmpty.
    rewrite Hname. reflexivity.
Qed.

(** On a declaration below a [Program] root the typed check completes
    normally. *)
Lemma typedCheck_completes_below_root
    (filename type : string) (declare : option bool) (parent : astNode)
    (options : Options) (jsdocTag : JsdocTag) (tagIndex : nat) :
  rooted parent = true →
  ∃ ds redundant,
    typedCheck filename (Node type declare parent) options jsdocTag tagIndex
    = (ds, Normal redundant).
Proof.
  intros Hroot. unfold typedCheck.
  destruct (typed options); [| by exists [], false].
  unfold checkTagForTypedValidity, reportWithTypeRemovalFixer.
  destruct (has typedTagsAlwaysUnnecessary (tag jsdocTag)).
  { eexists _, true. rewrite bind_emit. reflexivity. }
  rewrite tagIsRedundantWhenTyped_walkOnly by exact Hroot.
  unfold tagIsRedundantWhenTypedWalkOnly.
  assert (Hwalk : ∃ b, isInAmbientContext filename (Node type declare parent)
                       = Normal b).
  { rewrite isInAmbientContext_cases.
    assert (Hr : rooted (Node type declare parent) = true)
      by (cbn [rooted]; rewrite Hroot; apply orb_true_r).
    rewrite Hr. destruct (declaredBelowRoot _); eauto. }
  destruct Hwalk as [ambient Hwalk]. rewrite Hwalk.
  destruct (negb (has typedTagsUnnecessaryOutsideDeclare (tag jsdocTag)));
    [| destruct (String.eqb (name jsdocTag) "default");
       [| rewrite bind_lift_normal; destruct ambient]];
    rewrite bind_ret_l;
    try (eexists _, true; rewrite bind_emit; reflexivity);
    (destruct (String.eqb (tag jsdocTag) "template"
               && negb (nonEmpty (name jsdocTag)));
     [eexists _, true; rewrite bind_emit; reflexivity
     | by exists [], false]).
Qed.

(** X6.  On a declaration below a [Program] root the typed check never
    raises: it answers [typedVerdict], and it has made one report when the
    answer is [true] and none when it is [false]. *)
Theorem typed_verdict_below_root
    (filename type : string) (declare : option bool) (parent : astNode)
    (options : Options) (jsdocTag : JsdocTag) (tagIndex : nat) :
  rooted parent = true →
  ∃ ds,
    typedCheck filename (Node type declare parent) options jsdocTag tagIndex
    = (ds,
       Normal
         (typedVerdict filename (Node type declare parent) options jsdocTag))
    ∧ length ds
      = (if typedVerdict filename (Node type declare parent) options jsdocTag
         then 1 else 0).
Proof.
  intros Hroot. unfold typedCheck, typedVerdict.
  destruct (typed options); [| by exists []].
  unfold checkTagForTypedValidity, reportWithTypeRemovalFixer.
  destruct (has typedTagsAlwaysUnnecessary (tag jsdocTag)).
  { eexists. rewrite bind_emit. split; reflexivity. }
  rewrite tagIsRedundantWhenTyped_walkOnly by exact Hroot.
  unfold tagIsRedundantWhenTypedWalkOnly.
  rewrite isInAmbientContext_cases.
  assert (Hr : rooted (Node type declare parent) = true)
    by (cbn [rooted]; rewrite Hroot; apply orb_true_r).
  rewrite Hr. unfold nonEmpty. rewrite negb_involutive.
  destruct (has typedTagsUnnecessaryOutsideDeclare (tag jsdocTag));
    cbn [negb andb orb];
    [ destruct (String.eqb (name jsdocTag) "default"); cbn [negb andb orb];
      [| destruct (declaredBelowRoot (Node type declare parent));
         cbn [negb andb orb];
         [| destruct (endsWith filename ".d.ts"); cbn [negb andb orb]];
         rewrite bind_lift_normal ] |];
    rewrite bind_ret_l;
    try (eexists; rewrite bind_emit; split; reflexivity);
    (destruct (String.eqb (tag jsdocTag) "template"
               && String.eqb (name jsdocTag) "");
     [eexists; rewrite bind_emit; split; reflexivity | by exists []]).
Qed.

(** X7.  Without a node (a comment attached to no declaration), in typed
    mode, a tag of the redundant-outside-ambient set which is not always
    redundant and whose name path is not the word [default] makes the loop
    body raise [TypeError], in every file, before anything is reported. *)
Theorem unattached_comment_throws
    (utils : Utils) (filename : string) (settings : Settings)
    (options : Options) (definedPreferred : list scalar)
    (jsdocTag : JsdocTag) (tagIndex : nat) :
  typed options = true →
  tag jsdocTag ∈ typedTagsUnnecessaryOutsideDeclare →
  tag jsdocTag ∉ typedTagsAlwaysUnnecessary →
  name jsdocTag ≠ "default" →
  checkTag utils filename NullNode settings options definedPreferred jsdocTag
    tagIndex = ([], Throw TypeError).
Proof.
  intros Htyped Houtside Halways Hname. unfold checkTag.
  rewrite (typed_not_jsx (tag jsdocTag)) by (right; exact Houtside).
  rewrite andb_false_r.
  unfold typedCheck, checkTagForTypedValidity, tagIsRedundantWhenTyped.
  apply has_true in Houtside. apply has_false in Halways.
  apply String.eqb_neq in Hname.
  rewrite Htyped, Halways, Houtside, Hname. cbn [negb].
  destruct (endsWith filename ".d.ts"); reflexivity.
Qed.

(** ** The loop *)

(** Sequencing is associative. *)
Lemma bind_assoc {A B C : Type} (m : M A) (f : A → M B) (g : B → M C) :
  bind (bind m f) g = bind m (fun a => bind (f a) g).
Proof.
  destruct m as [ds [a | e]]; [| reflexivity].
  unfold bind. destruct (f a) as [ds1 [b | e1]].
  - destruct (g b) as [ds2 r]. rewrite app_assoc. reflexivity.
  - reflexivity.
Qed.

(** The loop over two runs of tags is the loop over the first followed by
    the loop over the second, the indices going on. *)
Lemma forEachTag_app
    (utils : Utils) (filename : string) (node : astNode)
    (settings : Settings) (options : Options)
    (definedPreferred : list scalar) (first rest : list JsdocTag)
    (tagIndex : nat) :
  forEachTag utils filename node settings options definedPreferred
    (first ++ rest) tagIndex
  = (forEachTag utils filename node settings options definedPreferred first
       tagIndex
     >> forEachTag utils filename node settings options definedPreferred rest
          (tagIndex + length first)).
Proof.
  revert tagIndex. induction first as [| t first IH]; intros tagIndex.
  - cbn [app forEachTag length]. rewrite bind_ret_l, Nat.add_0_r. reflexivity.
  - cbn [app forEachTag length]. rewrite IH, bind_assoc.
    replace (S tagIndex + length first) with (tagIndex + S (length first))
      by lia.
    reflexivity.
Qed.

(** X10.  An exception aborts the pass: when the loop body raises on a tag
    after the tags before it have been processed, the loop ends with that
    exception, keeps the reports made so far, and processes none of the tags
    that follow. *)
Theorem forEachTag_aborts
    (utils : Utils) (filename : string) (node : astNode)
    (settings : Settings) (options : Options)
    (definedPreferred : list scalar) (first rest : list JsdocTag)
    (jsdocTag : JsdocTag) (tagIndex : nat) (ds1 ds : list diagnostic)
    (e : error) :
  forEachTag utils filename node settings options definedPreferred first
    tagIndex = (ds1, Normal tt) →
  checkTag utils filename node settings options definedPreferred jsdocTag
    (tagIndex + length first) = (ds, Throw e) →
  forEachTag utils filename node settings options definedPreferred
    (first ++ jsdocTag :: rest) tagIndex = (ds1 ++ ds, Throw e).
Proof.
  intros Hfirst Hbody. rewrite forEachTag_app, Hfirst.
  cbn [forEachTag]. rewrite Hbody. reflexivity.
Qed.

(** X9.  When the loop body completes normally on every tag, the loop
    completes normally and its reports are those of the bodies, in the order
    of the tags, each body run with the index of its tag. *)
Theorem forEachTag_reports_in_order
    (utils : Utils) (filename : string) (node : astNode)
    (settings : Settings) (options : Options)
    (definedPreferred : list scalar) (tags : list JsdocTag) (start : nat) :
  (∀ i t, tags !! i = Some t →
     (checkTag utils filename node settings options definedPreferred t
        (start + i)).2 = Normal tt) →
  forEachTag utils filename node settings options definedPreferred tags start
  = (concat
       (imap (fun i t =>
                reports (checkTag utils filename node settings options
                           definedPreferred t (start + i)))
             tags),
     Normal tt).
Proof.
  revert start. induction tags as [| t tags IH]; intros start Hnormal.
  - reflexivity.
  - cbn [forEachTag imap concat].
    pose proof (Hnormal 0 t eq_refl) as Hhead. rewrite Nat.add_0_r in Hhead.
    destruct (checkTag utils filename node settings options definedPreferred
                t start) as [ds r] eqn:Hbody.
    cbn in Hhead. subst r. rewrite IH.
    + cbn [bind reports fst]. rewrite Nat.add_0_r, Hbody. cbn [fst].
      f_equal. f_equal. f_equal.
      apply imap_ext. intros i t' _. cbn.
      replace (S (start + i)) with (start + S i) by lia. reflexivity.
    + intros i t' Hi. replace (S start + i) with (start + S i) by lia.
      apply (Hnormal (S i) t'). exact Hi.
Qed.

(** ** The allowed preferred names *)

(** The callback of lines 83-100 over the values of the preference object:
    one settings report per invalid value, in order, and the value answered
    for each. *)
Lemma mapM_preferredTagOf (values : list preference) :
  mapM preferredTagOf values
  = ((fun _ => SettingsReport invalidPreferenceMessage)
       <$> List.filter invalidPreference values,
     Normal (replacementOf <$> values)).
Proof.
  induction values as [| p values IH]; [reflexivity |].
  cbn [mapM]. rewrite IH.
  destruct p as [[| | [|] | s] | message replacement];
    cbn; rewrite ?app_nil_r; reflexivity.
Qed.

(** X11.  Lines 75-104 always complete normally.  They make one settings
    report per value of the preference object that is neither falsy, a
    string nor an object, in the order of the values, and yield the truthy
    ones among the strings and the replacements of the objects; an empty
    preference object gives no report and no name. *)
Theorem definedPreferredTags_spec (settings : Settings) :
  definedPreferredTags settings
  = ((fun _ => SettingsReport invalidPreferenceMessage)
       <$> List.filter invalidPreference
             (map_to_list (tagNamePreference settings)).*2,
     Normal
       (List.filter truthy
          (replacementOf <$> (map_to_list (tagNamePreference settings)).*2))).
Proof.
  unfold definedPreferredTags, definedNonPreferredTags.
  case_bool_decide as Hempty.
  - rewrite length_fmap in Hempty. apply nil_length_inv in Hempty.
    rewrite Hempty. reflexivity.
  - rewrite mapM_preferredTagOf. cbn [bind ret]. rewrite ?app_nil_r.
    reflexivity.
Qed.

(** X12.  Every key of the preference object, and every non-empty name
    that a string value or the replacement of an object value prefers, is
    among the names handed to [utils.isValidTag]. *)
Theorem preferred_name_allowed
    (settings : Settings) (options : Options) (key : string)
    (p : preference) (preferred : string) :
  tagNamePreference settings !! key = Some p →
  replacementOf p = JsString preferred →
  preferred ≠ "" →
  ∃ ds definedPreferred,
    definedPreferredTags settings = (ds, Normal definedPreferred)
    ∧ JsString preferred ∈ allDefinedTags settings options definedPreferred
    ∧ JsString key ∈ allDefinedTags settings options definedPreferred.
Proof.
  intros Hp Hrepl Hnonempty.
  unfold definedPreferredTags, definedNonPreferredTags.
  assert (Hin : (key, p) ∈ map_to_list (tagNamePreference settings))
    by (apply elem_of_map_to_list; exact Hp).
  case_bool_decide as Hempty.
  { rewrite length_fmap in Hempty. apply nil_length_inv in Hempty.
    rewrite Hempty in Hin. inversion Hin. }
  rewrite mapM_preferredTagOf. cbn [bind ret]. eexists _, _.
  split; [reflexivity |]. split.
  - unfold allDefinedTags. rewrite !elem_of_app. right. left.
    apply list_elem_of_In, List.filter_In. split.
    + apply list_elem_of_In, list_elem_of_fmap. exists p.
      split; [symmetry; exact Hrepl |].
      apply list_elem_of_fmap. exists (key, p). split; [reflexivity | exact Hin].
    + cbn [truthy]. apply String.eqb_neq in Hnonempty. rewrite Hnonempty.
      reflexivity.
  - eapply preference_key_allowed. exact Hp.
Qed.

(** ** The fixers of a pass *)

(** The reports of a sequence. *)
Lemma reports_bind {A B : Type} (m : M A) (f : A → M B) :
  reports (bind m f)
  = reports m ++ match m.2 with
                 | Normal a => reports (f a)
                 | Throw _ => []
                 end.
Proof.
  destruct m as [ds [a | e]]; cbn.
  - destruct (f a) as [ds' r]. reflexivity.
  - rewrite app_nil_r. reflexivity.
Qed.

(** Whatever the typed check reports bears the handler for the tag checked
    and its index. *)
Lemma typedCheck_reports
    (filename : string) (node : astNode) (options : Options)
    (jsdocTag : JsdocTag) (tagIndex : nat) :
  Forall (fun d => ∃ message additional,
            d = Report message
                  (Some (TypeRemovalFixer jsdocTag tagIndex additional))
                  jsdocTag)
    (reports (typedCheck filename node options jsdocTag tagIndex)).
Proof.
  unfold typedCheck, checkTagForTypedValidity, tagIsRedundantWhenTyped,
    reportWithTypeRemovalFixer.
  destruct (typed options); [| constructor].
  destruct (has typedTagsAlwaysUnnecessary (tag jsdocTag)).
  { rewrite bind_emit. cbn. repeat constructor. eauto. }
  destruct (negb (has typedTagsUnnecessaryOutsideDeclare (tag jsdocTag)));
    [| destruct (String.eqb (name jsdocTag) "default");
       [| destruct (endsWith filename ".d.ts");
          [ destruct (nodeParent node) as [p | e];
            [ rewrite bind_lift_normal;
              destruct (nodeType p) as [t | e];
              [ rewrite bind_lift_normal, bind_ret_l;
                destruct (String.eqb t "Program") | ] | ] | ];
          rewrite ?bind_ret_l;
          try (destruct (isInAmbientContext filename node) as [[|] | e];
               rewrite ?bind_lift_normal) ] ];
    rewrite ?bind_ret_l, ?bind_lift_throw;
    try (destruct (String.eqb (tag jsdocTag) "template"
                   && negb (nonEmpty (name jsdocTag))));
    rewrite ?bind_emit; cbn; repeat constructor; eauto.
Qed.

(** A report without a fixer holds nothing. *)
Lemma noFixer_capturesTag (tags : list JsdocTag) (d : diagnostic) :
  diagnosticFixer d = None → fixerCapturesTag tags d.
Proof. destruct d as [m | m [f |] t]; [easy | discriminate | easy]. Qed.

(** The fixers reported by the loop body for the tag at [tagIndex]. *)
Lemma checkTag_fixers
    (utils : Utils) (filename : string) (node : astNode)
    (settings : Settings) (options : Options)
    (definedPreferred : list scalar) (tags : list JsdocTag)
    (jsdocTag : JsdocTag) (tagIndex : nat) :
  (∀ args d, d ∈ reports (getPreferredTagName utils args) →
     diagnosticFixer d = None) →
  tags !! tagIndex = Some jsdocTag →
  Forall (fixerCapturesTag tags)
    (reports (checkTag utils filename node settings options definedPreferred
                jsdocTag tagIndex)).
Proof.
  intros Hhelper Htag. unfold checkTag.
  destruct (jsxTags options && has jsxTagNames (tag jsdocTag));
    [constructor |].
  rewrite reports_bind. apply Forall_app. split.
  - eapply Forall_impl; [apply typedCheck_reports |].
    intros d (message & additional & ->). cbn. auto.
  - destruct (typedCheck filename node options jsdocTag tagIndex).2
      as [[|] | e]; try constructor.
    destruct (isValidTag utils (tag jsdocTag) _);
      [| cbn; repeat constructor].
    unfold checkPreference. rewrite reports_bind. apply Forall_app. split.
    + apply Forall_forall. intros d Hd. apply noFixer_capturesTag.
      eapply Hhelper. exact Hd.
    + destruct (getPreferredTagName utils _).2 as [preferred | e];
        [| constructor].
      destruct (negb (truthyPreference preferred)); [constructor |].
      destruct preferred as [v | message replacement];
        case_bool_decide as Hne; cbn; repeat constructor;
        try reflexivity; try exact Hne;
        apply list_elem_of_lookup; eauto.
Qed.

(** The fixers reported by the loop for tags that sit at their index. *)
Lemma forEachTag_fixers
    (utils : Utils) (filename : string) (node : astNode)
    (settings : Settings) (options : Options)
    (definedPreferred : list scalar) (tags rest : list JsdocTag)
    (start : nat) :
  (∀ args d, d ∈ reports (getPreferredTagName utils args) →
     diagnosticFixer d = None) →
  (∀ j t, rest !! j = Some t → tags !! (start + j) = Some t) →
  Forall (fixerCapturesTag tags)
    (reports (forEachTag utils filename node settings options
                definedPreferred rest start)).
Proof.
  intros Hhelper. revert start.
  induction rest as [| t rest IH]; intros start Hat; [constructor |].
  cbn [forEachTag]. rewrite reports_bind. apply Forall_app. split.
  - apply checkTag_fixers; [exact Hhelper |].
    specialize (Hat 0 t eq_refl). rewrite Nat.add_0_r in Hat. exact Hat.
  - destruct (checkTag _ _ _ _ _ _ t start).2; [| constructor].
    apply IH. intros j t' Hj.
    replace (S start + j) with (start + S j) by lia.
    apply Hat. exact Hj.
Qed.

(** X13.  When the reports made inside [utils.getPreferredTagName] carry no
    fixer, in every pass: a report with a type-removal handler is placed on
    the very tag the handler holds, and the index the handler holds is the
    index of that tag in [jsdoc.tags]; a report with a replace fixer is
    placed on a tag of the comment whose name is the name the fixer looks
    for, and the replacement of the fixer is never that name.  Nothing is
    said of the occurrence a replace fixer rewrites: it is the leftmost one
    in the text, which for a name borne by several tags is that of the
    first. *)
Theorem fixers_hold_reported_tag
    (utils : Utils) (filename : string) (node : astNode)
    (settings : Settings) (options : Options) (jsdoc : Block.t) :
  (∀ args d, d ∈ reports (getPreferredTagName utils args) →
     diagnosticFixer d = None) →
  Forall (fixerCapturesTag (Block.tags jsdoc))
    (reports (checkTagNames utils filename node settings options jsdoc)).
Proof.
  intros Hhelper. unfold checkTagNames. rewrite reports_bind.
  apply Forall_app. split.
  - unfold definedPreferredTags. case_bool_decide; [constructor |].
    rewrite mapM_preferredTagOf. cbn.  rewrite app_nil_r.
    apply Forall_fmap, Forall_forall. intros p _. exact I.
  - destruct (definedPreferredTags settings).2 as [definedPreferred | e];
      [| constructor].
    apply forEachTag_fixers; [exact Hhelper |].
    intros j t Hj. exact Hj.
Qed.

(** The helper of the specification reports without a fixer. *)
Lemma specUtils_reports_without_fixer
    (settings : Settings) (jsdoc : Block.t) (args : GetPreferredTagNameArgs)
    (d : diagnostic) :
  d ∈ reports (getPreferredTagName (specUtils settings jsdoc) args) →
  diagnosticFixer d = None.
Proof.
  cbn [getPreferredTagName specUtils]. unfold specGetPreferredTagName.
  destruct (tagNamePreference settings !! tagName args) as [p |];
    [| cbn; inversion 1].
  destruct (blacklisted p).
  - destruct (List.find _ _) as [located |]; cbn.
    + intros Hd. apply list_elem_of_singleton in Hd as ->. reflexivity.
    + inversion 1.
  - destruct p; cbn; inversion 1.
Qed.

(** ** Blank descriptions *)

(** Trimming at the start leaves nothing exactly when all is white space. *)
Lemma trimStart_empty (s : string) :
  trimStart s = "" ↔ allWhiteSpace s = true.
Proof.
  induction s as [| c s IH]; [easy |].
  cbn [trimStart allWhiteSpace]. destruct (isWhiteSpace c); cbn [andb].
  - exact IH.
  - split; discriminate.
Qed.

(** Reversal keeps white space. *)
Lemma allWhiteSpace_rev_app (s acc : string) :
  allWhiteSpace (String.rev_app s acc)
  = allWhiteSpace s && allWhiteSpace acc.
Proof.
  revert acc. induction s as [| c s IH]; intros acc; [reflexivity |].
  cbn [String.rev_app allWhiteSpace]. rewrite IH. cbn [allWhiteSpace].
  destruct (isWhiteSpace c), (allWhiteSpace s), (allWhiteSpace acc);
    reflexivity.
Qed.

(** Only the empty string reverses to the empty string. *)
Lemma rev_app_empty (s acc : string) :
  String.rev_app s acc = "" ↔ s = "" ∧ acc = "".
Proof.
  revert acc. induction s as [| c s IH]; intros acc; cbn [String.rev_app].
  - split; [auto | intros [_ H]; exact H].
  - rewrite IH. split; [intros [_ H]; discriminate | intros [H _]; discriminate].
Qed.

(** [trim] leaves nothing exactly when all is white space. *)
Lemma trim_empty (s : string) : trim s = "" ↔ allWhiteSpace s = true.
Proof.
  unfold trim, trimEnd, String.rev.
  rewrite rev_app_empty, trimStart_empty, allWhiteSpace_rev_app.
  cbn [allWhiteSpace]. rewrite andb_true_r.
  destruct (trimStart s) as [| c t] eqn:Hstart.
  - apply trimStart_empty in Hstart. rewrite Hstart. easy.
  - assert (Hs : allWhiteSpace s = false).
    { destruct (allWhiteSpace s) eqn:H; [| reflexivity].
      apply trimStart_empty in H. congruence. }
    rewrite Hs. split; [intros [H _] | discriminate].
    assert (Hfirst : isWhiteSpace c = false).
    { clear -Hstart. induction s as [| c' s IH]; [discriminate |].
      cbn [trimStart] in Hstart. destruct (isWhiteSpace c') eqn:Hc.
      - apply IH. exact Hstart.
      - injection Hstart as <- _. exact Hc. }
    cbn [allWhiteSpace] in H. rewrite Hfirst in H. discriminate.
Qed.

(** X14.  The type-removal handler calls [utils.removeTag] exactly when the
    description of the tag is empty or made of white space only (spaces,
    tabs, line ends); on any other description it calls [utils.changeTag]
    and removes nothing. *)
Theorem handler_removes_blank_descriptions
    (utils : Utils) (jsdocTag : JsdocTag) (tagIndex : nat)
    (additional : gmap string string) (jsdoc : Block.t) :
  runTypeRemovalFixer utils jsdocTag tagIndex additional jsdoc
  = if allWhiteSpace (description jsdocTag)
    then removeTag utils tagIndex {| removeEmptyBlock := true |} jsdoc
    else changeTag utils tagIndex (typeRemovalChanges additional) jsdoc.
Proof.
  unfold runTypeRemovalFixer, nonEmpty.
  destruct (allWhiteSpace (description jsdocTag)) eqn:Hblank.
  - apply trim_empty in Hblank. rewrite Hblank. reflexivity.
  - destruct (String.eqb (trim (description jsdocTag)) "") eqn:Htrim;
      [| reflexivity].
    apply String.eqb_eq, trim_empty in Htrim. congruence.
Qed.

(** ** Declaration files *)

(** [endsWith] holds exactly of the strings that are something followed by
    the suffix. *)
Lemma endsWith_spec (s suffix : string) :
  endsWith s suffix = true ↔ ∃ start, s = start +:+ suffix.
Proof.
  induction s as [| c s IH]; cbn [endsWith].
  - rewrite orb_false_r, String.eqb_eq. split.
    + intros <-. exists "". reflexivity.
    + intros ([| c start] & Hs); [exact Hs | discriminate].
  - rewrite orb_true_iff, String.eqb_eq, IH. split.
    + intros [<- | (start & ->)].
      * exists "". reflexivity.
      * exists (String c start). reflexivity.
    + intros ([| c' start] & Hs).
      * left. exact Hs.
      * right. rewrite app_cons in Hs. injection Hs as _ ->. eauto.
Qed.

(** X15.  For a node below which no [declare] marker is met before the
    [Program] root, the walk answers [true] exactly when the file name is
    some text followed by [.d.ts]: the name decides, and only by its end. *)
Theorem ambient_by_file_name (filename : string) (n : astNode) :
  rooted n = true → declaredBelowRoot n = false →
  isInAmbientContext filename n = Normal true
  ↔ ∃ start, filename = start +:+ ".d.ts".
Proof.
  intros Hroot Hdecl. rewrite isInAmbientContext_cases, Hroot, Hdecl.
  rewrite <- endsWith_spec.
  destruct (endsWith filename ".d.ts"); split; congruence.
Qed.

(** ** Descendants *)

(** X16.  The answer of the walk is inherited downwards: for a node [n] on
    which the walk answers, and any chain of nodes below it none of which is
    a [Program], the walk on the innermost node answers [true] when one of
    the nodes of the chain carries [declare], and the answer for [n]
    otherwise. *)
Theorem ambient_inherited
    (filename : string) (path : list (string * option bool)) (n : astNode)
    (ambient : bool) :
  belowProgram path = true →
  isInAmbientContext filename n = Normal ambient →
  isInAmbientContext filename (nest path n)
  = Normal (existsb (fun entry => Boolean entry.2) path || ambient).
Proof.
  intros Hbelow Hn. induction path as [| [type declare] path IH].
  - exact Hn.
  - cbn [belowProgram forallb fst] in Hbelow.
    apply andb_true_iff in Hbelow as [Htype Hbelow].
    apply negb_true_iff in Htype.
    cbn [nest isInAmbientContext existsb snd]. rewrite Htype.
    destruct (Boolean declare); [reflexivity |].
    apply IH. exact Hbelow.
Qed.

(** ** The pattern and the text around the match *)

(** The search finds the leftmost whole-word occurrence. *)
Lemma exec_of_firstWholeWordAt (c : ascii) (w text before after : string) :
  firstWholeWordAt (String c w) text before after →
  exec (literal (String c w) ++ [WordBoundary]) text
  = Some (before, String c w, after).
Proof.
  intros [Hocc Hfirst]. unfold exec.
  pose proof Hocc as Hocc'.
  apply wholeWordAt_matchHere in Hocc' as (s0 & Htext & Hmatch0).
  destruct (execFrom (literal (String c w) ++ [WordBoundary]) None text)
    as [[[b m] a] |] eqn:Hexec.
  - pose proof (exec_firstWholeWordAt c w text b m a Hexec)
      as [-> [Hocc2 _]].
    apply execFrom_Some in Hexec as (s' & Hs & Hmatch & Hmin).
    pose proof (Hfirst _ _ Hocc2) as Hle.
    assert (Hlen : String.length before = String.length b).
    { destruct (decide (String.length before < String.length b)%nat)
        as [Hlt | Hge]; [| lia].
      rewrite (Hmin _ _ Htext Hlt) in Hmatch0. discriminate. }
    apply matchHere_literal in Hmatch as (_ & -> & _).
    destruct Hocc as [Hbefore _]. rewrite Hbefore in Hs.
    apply app_same_length in Hs as [<- Hs]; [| exact Hlen].
    apply (inj (String.app (String c w))) in Hs as <-. reflexivity.
  - rewrite (execFrom_None _ _ _ Hexec _ _ Htext) in Hmatch0. discriminate.
Qed.

(** X3.  Whatever the preferred name is, the replace fixer rewrites the
    leftmost whole-word occurrence of [@tagName] only: the text before it
    and the text after it are kept, and what is written in its place is the
    expansion of [@preferredTagName] as a replacement pattern. *)
Theorem replace_keeps_surrounding_text
    (sourceText tagName before after : string) (preferredTagName : scalar) :
  firstWholeWordAt ("@" +:+ tagName) sourceText before after →
  runReplaceFixer sourceText tagName preferredTagName
  = Some (before
          +:+ GetSubstitution ("@" +:+ tagName) before after
                ("@" +:+ toString preferredTagName)
          +:+ after).
Proof.
  intros Hfirst. unfold runReplaceFixer. rewrite parsePattern_fixer.
  cbn [mbind option_bind]. unfold replace.
  change ("@" +:+ tagName) with (String "@" tagName) in *.
  rewrite (exec_of_firstWholeWordAt _ _ _ _ _ Hfirst). reflexivity.
Qed.

(** A literal matches exactly where the text goes on with it. *)
Lemma matchHere_plain_literal
    (w : string) (prev : option ascii) (s m rest : string) :
  matchHere (literal w) prev s = Some (m, rest) ↔ m = w ∧ s = w +:+ rest.
Proof.
  revert prev s m rest. induction w as [| c w IH]; intros prev s m rest.
  - cbn. split; [intros [= <- <-]; auto | intros [-> ->]; reflexivity].
  - cbn [literal matchHere]. destruct s as [| c' s].
    + split; [discriminate | intros [_ Hs]; discriminate].
    + destruct (Ascii.eqb c c') eqn:Hc.
      * apply Ascii.eqb_eq in Hc as <-.
        destruct (matchHere (literal w) (Some c) s) as [[m' rest'] |] eqn:Hm;
          cbn.
        -- apply IH in Hm as [-> ->]. split.
           ++ intros [= <- <-]. auto.
           ++ intros [-> Hs]. rewrite app_cons in Hs. injection Hs as Hs.
              apply (inj (String.app w)) in Hs as <-. reflexivity.
        -- split; [discriminate |]. intros [-> Hs].
           rewrite app_cons in Hs. injection Hs as ->.
           assert (Hsome : matchHere (literal w) (Some c) (w +:+ rest)
                           = Some (w, rest)) by (apply IH; auto).
           congruence.
      * split; [discriminate |]. intros [_ Hs].
        rewrite app_cons in Hs. injection Hs as <- _.
        rewrite Ascii.eqb_refl in Hc. discriminate.
Qed.

(** X4.  Escaping a tag name and compiling the result gives a pattern that
    matches the tag name itself and nothing else, whatever characters the
    name holds: the pattern always compiles, and it matches at a position
    exactly when the text goes on with the name there. *)
Theorem escaped_name_matches_itself_only
    (tagName : string) (prev : option ascii) (s m rest : string) :
  (r ← parsePattern (escapeStringRegexp tagName); matchHere r prev s)
  = Some (m, rest)
  ↔ m = tagName ∧ s = tagName +:+ rest.
Proof.
  replace (escapeStringRegexp tagName)
    with (escapeStringRegexp tagName +:+ "")
    by apply app_nil_r_string.
  rewrite parsePattern_escapeStringRegexp. cbn. rewrite app_nil_r.
  apply matchHere_plain_literal.
Qed.

(** ** The pass on a well-formed tree *)

(** The loop body completes normally on a declaration below a [Program]
    root when the helper does. *)
Lemma checkTag_completes_below_root
    (utils : Utils) (filename type : string) (declare : option bool)
    (parent : astNode) (settings : Settings) (options : Options)
    (definedPreferred : list scalar) (jsdocTag : JsdocTag) (tagIndex : nat) :
  (∀ args, ∃ ds p, getPreferredTagName utils args = (ds, Normal p)) →
  rooted parent = true →
  (checkTag utils filename (Node type declare parent) settings options
     definedPreferred jsdocTag tagIndex).2 = Normal tt.
Proof.
  intros Hhelper Hroot. unfold checkTag.
  destruct (jsxTags options && has jsxTagNames (tag jsdocTag));
    [reflexivity |].
  destruct (typedCheck_completes_below_root filename type declare parent
              options jsdocTag tagIndex Hroot) as (ds & redundant & ->).
  cbn [bind]. destruct redundant; [reflexivity |].
  destruct (isValidTag utils (tag jsdocTag) _); [| reflexivity].
  unfold checkPreference.
  destruct (Hhelper
              {| allowObjectReturn := true;
                 defaultMessage :=
                   "Blacklisted tag found (`@" +:+ tag jsdocTag +:+ "`)";
                 tagName := tag jsdocTag |}) as (ds' & p & ->).
  cbn [bind].
  destruct (negb (truthyPreference p)); [reflexivity |].
  destruct p as [v | message replacement]; case_bool_decide; reflexivity.
Qed.

(** X8.  On a comment attached to a declaration below a [Program] root the
    pass raises no exception of its own: when [utils.getPreferredTagName]
    completes normally on every argument, so does the pass, in every file,
    under every option and setting and for every comment. *)
Theorem pass_completes_below_root
    (utils : Utils) (filename type : string) (declare : option bool)
    (parent : astNode) (settings : Settings) (options : Options)
    (jsdoc : Block.t) :
  (∀ args, ∃ ds p, getPreferredTagName utils args = (ds, Normal p)) →
  rooted parent = true →
  (checkTagNames utils filename (Node type declare parent) settings options
     jsdoc).2 = Normal tt.
Proof.
  intros Hhelper Hroot. unfold checkTagNames, definedPreferredTags.
  assert (Hloop : ∀ definedPreferred tags start,
            (forEachTag utils filename (Node type declare parent) settings
               options definedPreferred tags start).2 = Normal tt).
  { intros definedPreferred tags.
    induction tags as [| t tags IH]; intros start; [reflexivity |].
    cbn [forEachTag].
    pose proof (checkTag_completes_below_root utils filename type declare
                  parent settings options definedPreferred t start Hhelper
                  Hroot) as Hbody.
    destruct (checkTag _ _ _ _ _ _ t start) as [ds r]. cbn in Hbody.
    subst r. cbn [bind]. specialize (IH (S start)).
    destruct (forEachTag _ _ _ _ _ _ tags (S start)) as [ds' r'].
    exact IH. }
  case_bool_decide.
  - rewrite bind_ret_l. apply Hloop.
  - rewrite mapM_preferredTagOf. cbn [bind ret].
    match goal with
    | |- context [forEachTag ?u ?f ?n ?s ?o ?d ?t ?i] =>
        specialize (Hloop d t i);
        destruct (forEachTag u f n s o d t i) as [ds' r']
    end.
    exact Hloop.
Qed.

(** ** Instances *)

Lemma nameless_template_rule_witness :
  checkTag (specUtils noSettings (sampleBlock [])) "shapes.ts" NullNode
    noSettings typedOptions [] (sampleTag "template" "" "") 0
  = ([Report
        "'@template' without a name is redundant when using a type system."
        (Some (TypeRemovalFixer (sampleTag "template" "" "") 0 ∅))
        (sampleTag "template" "" "")],
     Normal tt)
  ∧ typedCheck "shapes.ts" NullNode typedOptions (sampleTag "template" "T" "")
      0 = ([], Normal false).
Proof.
  split.
  - apply (nameless_template_rule (specUtils noSettings (sampleBlock []))
             "shapes.ts" NullNode noSettings typedOptions []
             (sampleTag "template" "" "") 0 eq_refl eq_refl).
    reflexivity.
  - apply (nameless_template_rule (specUtils noSettings (sampleBlock []))
             "shapes.ts" NullNode noSettings typedOptions []
             (sampleTag "template" "T" "") 0 eq_refl eq_refl).
    discriminate.
Defined.

Lemma typed_verdict_below_root_witness :
  ∃ ds,
    typedCheck "shapes.ts" methodOfDeclaredClass typedOptions
      (sampleTag "abstract" "" "") 0
    = (ds,
       Normal
         (typedVerdict "shapes.ts" methodOfDeclaredClass typedOptions
            (sampleTag "abstract" "" "")))
    ∧ length ds
      = (if typedVerdict "shapes.ts" methodOfDeclaredClass typedOptions
              (sampleTag "abstract" "" "")
         then 1 else 0).
Proof.
  apply (typed_verdict_below_root "shapes.ts" "MethodDefinition" None
           (Node "ClassBody" None declaredClass) typedOptions
           (sampleTag "abstract" "" "") 0).
  reflexivity.
Defined.

Lemma unattached_comment_throws_witness :
  checkTag (specUtils noSettings (sampleBlock [])) "shapes.ts" NullNode
    noSettings typedOptions [] (sampleTag "namespace" "Shapes" "") 0
  = ([], Throw TypeError).
Proof.
  apply unattached_comment_throws.
  - reflexivity.
  - apply has_true. vm_compute. reflexivity.
  - apply has_false. vm_compute. reflexivity.
  - discriminate.
Defined.

Lemma forEachTag_reports_in_order_witness :
  forEachTag (specUtils sampleSettings (sampleBlock [])) "shapes.ts"
    plainClass sampleSettings typedOptions []
    [sampleTag "typedef" "" ""; sampleTag "abstract" "" ""] 3
  = (concat
       (imap (fun i t =>
                reports
                  (checkTag (specUtils sampleSettings (sampleBlock []))
                     "shapes.ts" plainClass sampleSettings typedOptions [] t
                     (3 + i)))
             [sampleTag "typedef" "" ""; sampleTag "abstract" "" ""]),
     Normal tt).
Proof.
  apply forEachTag_reports_in_order.
  intros [| [| i]] t Ht; cbn in Ht; try discriminate;
    injection Ht as <-; vm_compute; reflexivity.
Defined.

Lemma forEachTag_aborts_witness :
  forEachTag (specUtils noSettings (sampleBlock [])) "shapes.ts" NullNode
    noSettings typedOptions []
    ([sampleTag "typedef" "" ""]
     ++ sampleTag "namespace" "Shapes" "" :: [sampleTag "callback" "" ""]) 0
  = ([Report "'@typedef' is redundant when using a type system."
        (Some (TypeRemovalFixer (sampleTag "typedef" "" "") 0
                 (<["postTag" := ""]> (<["tag" := ""]> ∅))))
        (sampleTag "typedef" "" "")] ++ [],
     Throw TypeError).
Proof.
  apply forEachTag_aborts; vm_compute; reflexivity.
Defined.

Lemma preferred_name_allowed_witness :
  ∃ ds definedPreferred,
    definedPreferredTags sampleSettings = (ds, Normal definedPreferred)
    ∧ JsString "param"
      ∈ allDefinedTags sampleSettings typedOptions definedPreferred
    ∧ JsString "arg"
      ∈ allDefinedTags sampleSettings typedOptions definedPreferred.
Proof.
  apply (preferred_name_allowed sampleSettings typedOptions "arg"
           (Scalar (JsString "param")) "param").
  - vm_compute. reflexivity.
  - reflexivity.
  - discriminate.
Defined.

Lemma fixers_hold_reported_tag_witness :
  Forall
    (fixerCapturesTag
       (Block.tags
          (sampleBlock [sampleTag "typedef" "" ""; sampleTag "arg" "x" "";
                        sampleTag "todo" "" "later"])))
    (reports
       (checkTagNames
          (specUtils sampleSettings
             (sampleBlock [sampleTag "typedef" "" ""; sampleTag "arg" "x" "";
                           sampleTag "todo" "" "later"]))
          "shapes.ts" plainClass sampleSettings typedOptions
          (sampleBlock [sampleTag "typedef" "" ""; sampleTag "arg" "x" "";
                        sampleTag "todo" "" "later"]))).
Proof.
  apply fixers_hold_reported_tag.
  intros args d. apply specUtils_reports_without_fixer.
Defined.

Lemma pass_completes_below_root_witness :
  (checkTagNames
     (specUtils sampleSettings
        (sampleBlock [sampleTag "namespace" "Shapes" "";
                      sampleTag "arg" "x" ""]))
     "shapes.ts" plainClass sampleSettings typedOptions
     (sampleBlock [sampleTag "namespace" "Shapes" ""; sampleTag "arg" "x" ""])).2
  = Normal tt.
Proof.
  apply (pass_completes_below_root _ "shapes.ts" "ClassDeclaration" None
           programNode).
  - intros args. cbn [getPreferredTagName specUtils].
    unfold specGetPreferredTagName.
    destruct (_ !! _) as [p |]; [| eauto].
    destruct (blacklisted p).
    + destruct (List.find _ _); eauto.
    + destruct p; eauto.
  - reflexivity.
Defined.

Lemma ambient_by_file_name_witness :
  isInAmbientContext "shapes.d.ts" plainClass = Normal true
  ↔ ∃ start, "shapes.d.ts" = start +:+ ".d.ts".
Proof.
  apply (ambient_by_file_name "shapes.d.ts" plainClass); reflexivity.
Defined.

Lemma ambient_inherited_witness :
  isInAmbientContext "shapes.ts"
    (nest [("MethodDefinition", None); ("ClassBody", None)] declaredClass)
  = Normal
      (existsb (fun entry => Boolean entry.2)
         [("MethodDefinition", None); ("ClassBody", None)]
       || true).
Proof.
  apply (ambient_inherited "shapes.ts"
           [("MethodDefinition", None); ("ClassBody", None)] declaredClass
           true); reflexivity.
Defined.

Lemma replace_keeps_surrounding_text_witness :
  runReplaceFixer "/** @ref x */" "ref" (JsString "$$ref")
  = Some ("/** "
          +:+ GetSubstitution ("@" +:+ "ref") "/** " " x */"
                ("@" +:+ toString (JsString "$$ref"))
          +:+ " x */").
Proof.
  apply (replace_keeps_surrounding_text "/** @ref x */" "ref" "/** " " x */"
           (JsString "$$ref")).
  apply (exec_firstWholeWordAt "@" "ref" _ _ "@ref"). reflexivity.
Defined.

(** X17.  With typed mode off the pass reads neither the file name nor the
    node: its reports and its completion are the same for every file name
    and every node, a missing one included. *)
Theorem untyped_pass_ignores_tree
    (utils : Utils) (filename filename' : string) (node node' : astNode)
    (settings : Settings) (options : Options) (jsdoc : Block.t) :
  typed options = false →
  checkTagNames utils filename node settings options jsdoc
  = checkTagNames utils filename' node' settings options jsdoc.
Proof.
  intros Huntyped.
  assert (Hloop : ∀ definedPreferred tags start,
            forEachTag utils filename node settings options definedPreferred
              tags start
            = forEachTag utils filename' node' settings options
                definedPreferred tags start).
  { intros definedPreferred tags.
    induction tags as [| t tags IH]; intros start; [reflexivity |].
    cbn [forEachTag]. rewrite IH. f_equal.
    unfold checkTag, typedCheck. rewrite Huntyped. reflexivity. }
  unfold checkTagNames.
  destruct (definedPreferredTags settings) as [ds [definedPreferred | e]];
    [| reflexivity].
  cbn [bind]. rewrite Hloop. reflexivity.
Qed.

Lemma untyped_pass_ignores_tree_witness :
  checkTagNames (specUtils sampleSettings (sampleBlock [])) "shapes.ts"
    plainClass sampleSettings untypedOptions
    (sampleBlock [sampleTag "namespace" "Shapes" ""])
  = checkTagNames (specUtils sampleSettings (sampleBlock [])) "shapes.d.ts"
      NullNode sampleSettings untypedOptions
      (sampleBlock [sampleTag "namespace" "Shapes" ""]).
Proof.
  apply untyped_pass_ignores_tree. reflexivity.
Defined.
